(** * DailyTaskTracker: the storage engine of [src/storage.js]

    A shallow embedding of [class StorageManager] (validation, derived
    fields, Smart Score, persistence with backup, and the task repository)
    and the properties of its specification.

    The program is dynamically typed, so the embedding keeps it that way:
    every JavaScript value is a [JsVal], objects are property lists in
    insertion order, and a method that can throw returns a [Result].

    Conventions of the model.
    - Numbers are exact rationals ([Q]) plus [JNaN]; the infinities and the
      rounding of IEEE doubles are not represented.  [Math.round(x * 10)]
      absorbs the rounding error of [priority / 100 * 40], so the scores
      agree with the doubles the program computes.
    - A string is a sequence of code units below 256.
    - The clock is an explicit argument [now] (milliseconds since the
      epoch); one operation reads one instant.
    - What the host decides (parsing a date string, printing a number that
      is not an integer, reading a string as a number) is a field of
      [Host], over which the development is parametric.
    - [localStorage] holds decoded JSON trees: an item is either text that
      [JSON.parse] rejects or the tree it decodes to. *)

From Stdlib Require Import ZArith QArith Qround Qminmax List String Ascii Bool Lia Lqa.
From Stdlib Require Import Numbers.DecimalString.
Import ListNotations.

Local Open Scope string_scope.
Local Open Scope Z_scope.

(** ** Values *)

#[local] Set Warnings "-register-all".

Inductive JsVal : Type :=
| JUndefined
| JNull
| JBool (b : bool)
| JNaN
| JNum (q : Q)
| JStr (s : string)
| JArr (items : list JsVal)
| JObj (props : list (string * JsVal)).

Definition JInt (z : Z) : JsVal := JNum (inject_Z z).

(** ** Exceptions *)

Inductive Error : Type :=
| TypeError
| RangeError
| SyntaxError
| QuotaExceeded
| Err (msg : string).

Inductive Result (A : Type) : Type :=
| Ok (a : A)
| Throw (e : Error).

Arguments Ok {A} a.
Arguments Throw {A} e.

Definition bind {A B} (r : Result A) (k : A -> Result B) : Result B :=
  match r with
  | Ok a => k a
  | Throw e => Throw e
  end.

Notation "x <- r ;; k" := (bind r (fun x => k))
  (at level 61, r at next level, right associativity).

Definition isOk {A} (r : Result A) : bool :=
  match r with Ok _ => true | Throw _ => false end.

(** [xs.map(f)] where [f] may throw: the first exception aborts the map. *)
Fixpoint mapM {A B} (f : A -> Result B) (xs : list A) : Result (list B) :=
  match xs with
  | [] => Ok []
  | x :: rest => y <- f x ;; ys <- mapM f rest ;; Ok (y :: ys)
  end.

(** [xs.filter(p)] where [p] may throw. *)
Fixpoint filterM {A} (p : A -> Result bool) (xs : list A) : Result (list A) :=
  match xs with
  | [] => Ok []
  | x :: rest =>
      b <- p x ;; ys <- filterM p rest ;; Ok (if b then x :: ys else ys)
  end.


(** ** Strings *)

Module Str.

Definition code (c : ascii) : N := N_of_ascii c.

(** WhiteSpace and LineTerminator code units below 256. *)
Definition isSpace (c : ascii) : bool :=
  let n := code c in
  ((9 <=? n) && (n <=? 13) || (n =? 32) || (n =? 160))%N.

Fixpoint trimStart (s : string) : string :=
  match s with
  | String c rest => if isSpace c then trimStart rest else s
  | EmptyString => EmptyString
  end.

(** Drops the trailing white space: a character stays when it is not
    white space or when something stays after it. *)
Fixpoint trimEnd (s : string) : string :=
  match s with
  | EmptyString => EmptyString
  | String c rest =>
      match trimEnd rest with
      | EmptyString => if isSpace c then EmptyString else String c EmptyString
      | kept => String c kept
      end
  end.

Definition trim (s : string) : string := trimEnd (trimStart s).



(** [s.includes(t)] *)
Fixpoint includes (s t : string) : bool :=
  prefix t s ||
  match s with
  | EmptyString => false
  | String _ rest => includes rest t
  end.

(** [s.split(sep)[0]] for a one-character separator *)
Fixpoint beforeChar (sep : ascii) (s : string) : string :=
  match s with
  | EmptyString => EmptyString
  | String c rest =>
      if Ascii.eqb c sep then EmptyString else String c (beforeChar sep rest)
  end.

Definition ofZ (z : Z) : string := NilZero.string_of_int (Z.to_int z).

Fixpoint zeros (n : nat) : string :=
  match n with
  | O => ""
  | S m => String "0" (zeros m)
  end.

(** [s.padStart(width, '0')] *)
Definition padStart (width : nat) (s : string) : string :=
  zeros (width - String.length s) ++ s.

Definition pad (width : nat) (n : Z) : string := padStart width (ofZ n).

Fixpoint join (sep : string) (parts : list string) : string :=
  match parts with
  | [] => ""
  | [p] => p
  | p :: rest => p ++ sep ++ join sep rest
  end.

End Str.

(** ** [Date.prototype.toISOString] *)

Module DateTime.

Definition msPerDay : Z := 24 * 60 * 60 * 1000.

(** Year, month and day of a day number counted from 1970-01-01
    (proleptic Gregorian calendar). *)
Definition civil (day : Z) : Z * Z * Z :=
  let z := day + 719468 in
  let era := z / 146097 in
  let doe := z - era * 146097 in
  let yoe := (doe - doe / 1460 + doe / 36524 - doe / 146096) / 365 in
  let doy := doe - (365 * yoe + yoe / 4 - yoe / 100) in
  let mp := (5 * doy + 2) / 153 in
  let d := doy - (153 * mp + 2) / 5 + 1 in
  let m := if mp <? 10 then mp + 3 else mp - 9 in
  let y := yoe + era * 400 + (if m <=? 2 then 1 else 0) in
  (y, m, d).

Definition yearString (y : Z) : string :=
  if (0 <=? y) && (y <=? 9999) then Str.pad 4 y
  else (if y <? 0 then "-" else "+") ++ Str.pad 6 (Z.abs y).

Definition toISOString (ms : Z) : string :=
  let '(y, m, d) := civil (ms / msPerDay) in
  let r := ms mod msPerDay in
  yearString y ++ "-" ++ Str.pad 2 m ++ "-" ++ Str.pad 2 d
    ++ "T" ++ Str.pad 2 (r / 3600000)
    ++ ":" ++ Str.pad 2 (r / 60000 mod 60)
    ++ ":" ++ Str.pad 2 (r / 1000 mod 60)
    ++ "." ++ Str.pad 3 (r mod 1000) ++ "Z".

(** [new Date().toISOString().split('T')[0]] *)
Definition today (now : Z) : string := Str.beforeChar "T" (toISOString now).

End DateTime.

(** ** The host *)

(** What the engine leaves to the JavaScript host.  [None] stands for
    [NaN]. *)
Record Host : Type := {
  (** [Date.parse]: the time value of a date string *)
  Date_parse : string -> option Z;
  (** [Number.prototype.toString] of a number that is not an integer *)
  Number_toString : Q -> string;
  (** [Number(s)] of a string *)
  String_toNumber : string -> option Q
}.

(** ** Objects as ordered property lists *)

Module Props.

Definition t : Type := list (string * JsVal).

Fixpoint lookup (k : string) (ps : t) : option JsVal :=
  match ps with
  | [] => None
  | (k', v) :: rest => if String.eqb k k' then Some v else lookup k rest
  end.

(** [o[k] = v]: an existing property keeps its place, a new one is
    appended. *)
Fixpoint set (k : string) (v : JsVal) (ps : t) : t :=
  match ps with
  | [] => [(k, v)]
  | (k', v') :: rest =>
      if String.eqb k k' then (k, v) :: rest else (k', v') :: set k v rest
  end.

(** [{...a, ...b}]: the properties of [b] laid over those of [a]. *)
Definition assign (a b : t) : t :=
  fold_left (fun acc kv => set (fst kv) (snd kv) acc) b a.

Definition has (k : string) (ps : t) : bool :=
  match lookup k ps with Some _ => true | None => false end.

Fixpoint indexed (i : nat) (xs : list JsVal) : t :=
  match xs with
  | [] => []
  | x :: rest => (Str.ofZ (Z.of_nat i), x) :: indexed (S i) rest
  end.

Fixpoint chars (s : string) : list JsVal :=
  match s with
  | EmptyString => []
  | String c rest => JStr (String c EmptyString) :: chars rest
  end.

(** The own enumerable properties a spread [...v] copies. *)
Definition own (v : JsVal) : t :=
  match v with
  | JObj ps => ps
  | JArr xs => indexed 0 xs
  | JStr s => indexed 0 (chars s)
  | _ => []
  end.

End Props.

(** ** Coercions and operators *)

Section Coercions.

Variable host : Host.

(** [Boolean(v)], the test of [!v], [v || d] and [c ? a : b] *)
Definition truthy (v : JsVal) : bool :=
  match v with
  | JUndefined | JNull | JNaN => false
  | JBool b => b
  | JNum q => negb (Qeq_bool q 0)
  | JStr s => negb (String.eqb s "")
  | JArr _ | JObj _ => true
  end.

(** [a || b] *)
Definition or (a b : JsVal) : JsVal := if truthy a then a else b.

(** [typeof v === 'object'] ([null] and arrays included) *)
Definition typeofObject (v : JsVal) : bool :=
  match v with
  | JNull | JArr _ | JObj _ => true
  | _ => false
  end.

Definition isArray (v : JsVal) : bool :=
  match v with JArr _ => true | _ => false end.

(** [v.k] for the property names this program reads (none of them is
    defined on [Object.prototype], [Array.prototype] or a primitive
    wrapper): reading from [null] or [undefined] throws, a missing
    property is [undefined]. *)
Definition get (k : string) (v : JsVal) : Result JsVal :=
  match v with
  | JUndefined | JNull => Throw TypeError
  | JObj ps =>
      Ok (match Props.lookup k ps with Some x => x | None => JUndefined end)
  | _ => Ok JUndefined
  end.

(** The fields of an object known not to be [null]. *)
Definition field (k : string) (ps : Props.t) : JsVal :=
  match Props.lookup k ps with Some x => x | None => JUndefined end.

Definition NumberToString (q : Q) : string :=
  let r := Qred q in
  if (Qden r =? 1)%positive then Str.ofZ (Qnum r) else Number_toString host r.

(** [String(v)].  An array prints its elements separated by commas,
    [null] and [undefined] as nothing.  A plain object prints as
    [[object Object]] through the inherited [toString]; when the object
    has an own property named [toString] (never callable in decoded
    JSON) the conversion finds no method that yields a primitive and
    throws a TypeError. *)
Fixpoint ToString (v : JsVal) : Result string :=
  match v with
  | JUndefined => Ok "undefined"
  | JNull => Ok "null"
  | JBool true => Ok "true"
  | JBool false => Ok "false"
  | JNaN => Ok "NaN"
  | JNum q => Ok (NumberToString q)
  | JStr s => Ok s
  | JArr xs =>
      let element (x : JsVal) : Result string :=
        match x with
        | JUndefined | JNull => Ok ""
        | _ => ToString x
        end in
      parts <- (fix each (l : list JsVal) : Result (list string) :=
                  match l with
                  | [] => Ok []
                  | x :: rest =>
                      s <- element x ;; ss <- each rest ;; Ok (s :: ss)
                  end) xs ;;
      Ok (Str.join "," parts)
  | JObj ps =>
      if Props.has "toString" ps then Throw TypeError
      else Ok "[object Object]"
  end.

(** [Number(v)]; objects and arrays go through their string. *)
Definition ToNumber (v : JsVal) : Result (option Q) :=
  match v with
  | JUndefined | JNaN => Ok None
  | JNull => Ok (Some 0%Q)
  | JBool b => Ok (Some (if b then 1%Q else 0%Q))
  | JNum q => Ok (Some q)
  | JStr s => Ok (String_toNumber host s)
  | JArr _ | JObj _ => s <- ToString v ;; Ok (String_toNumber host s)
  end.

Definition ofNumber (n : option Q) : JsVal :=
  match n with Some q => JNum q | None => JNaN end.

(** The integer part of a rational, towards zero. *)
Definition truncate (q : Q) : Z := Z.quot (Qnum q) (Zpos (Qden q)).

Definition digitValue (radix : N) (c : ascii) : option N :=
  let n := Str.code c in
  let d := if ((48 <=? n) && (n <=? 57))%N then Some (n - 48)%N
           else if ((97 <=? n) && (n <=? 122))%N then Some (n - 87)%N
           else if ((65 <=? n) && (n <=? 90))%N then Some (n - 55)%N
           else None in
  match d with
  | Some x => if (x <? radix)%N then Some x else None
  | None => None
  end.

(** The longest prefix of digits, as a number; [None] when there is no
    digit. *)
Fixpoint digits (radix : N) (s : string) (acc : option N) : option N :=
  match s with
  | EmptyString => acc
  | String c rest =>
      match digitValue radix c with
      | Some d =>
          digits radix rest
            (Some (match acc with Some a => a * radix + d | None => d end)%N)
      | None => acc
      end
  end.

(** [parseInt(s)] of a string, without a radix argument *)
Definition parseIntString (s : string) : option Z :=
  let s1 := Str.trimStart s in
  let '(negative, s2) :=
    match s1 with
    | String "-" rest => (true, rest)
    | String "+" rest => (false, rest)
    | _ => (false, s1)
    end in
  let '(radix, s3) :=
    match s2 with
    | String "0" (String "x" rest) | String "0" (String "X" rest) =>
        (16%N, rest)
    | _ => (10%N, s2)
    end in
  match digits radix s3 None with
  | None => None
  | Some n => Some (if negative then - Z.of_N n else Z.of_N n)
  end.

(** [parseInt(v)].  The builtin prints its argument first; a number that
    prints in positional notation (1e-6 <= |x| < 1e21) parses back to
    its integer part. *)
Definition parseInt (v : JsVal) : Result (option Z) :=
  match v with
  | JNum q => Ok (Some (truncate q))
  | _ => s <- ToString v ;; Ok (parseIntString s)
  end.

(** [a === b].  Arrays and objects compare by identity, and a value
    decoded from storage is never the caller's own object. *)
Definition strictEq (a b : JsVal) : bool :=
  match a, b with
  | JUndefined, JUndefined | JNull, JNull => true
  | JBool x, JBool y => Bool.eqb x y
  | JNum x, JNum y => Qeq_bool x y
  | JStr x, JStr y => String.eqb x y
  | _, _ => false
  end.

(** SameValueZero, the comparison of [Array.prototype.includes] and of
    [Map] keys: as [===], but [NaN] equals itself. *)
Definition sameValueZero (a b : JsVal) : bool :=
  match a, b with
  | JNaN, JNaN => true
  | _, _ => strictEq a b
  end.

(** [Math.max(...xs, 0)] *)
Definition MathMax0 (xs : list JsVal) : Result (option Q) :=
  ns <- mapM ToNumber xs ;;
  Ok (fold_left
        (fun acc n =>
           match acc, n with
           | Some a, Some b => Some (Qmax a b)
           | _, _ => None
           end)
        ns (Some 0%Q)).

(** [Math.round(x)]: the nearest integer, halves upwards *)
Definition MathRound (x : Q) : Z := Qfloor (x + (1 # 2)).

(** The time value of [new Date(v)]; [None] is an invalid date. *)
Definition timeClip (t : Z) : option Z :=
  if Z.abs t <=? 8640000000000000 then Some t else None.

Definition newDate (v : JsVal) : Result (option Z) :=
  match v with
  | JUndefined | JNaN => Ok None
  | JNull => Ok (Some 0)
  | JBool b => Ok (Some (if b then 1 else 0))
  | JNum q => Ok (timeClip (truncate q))
  | JStr s => Ok (Date_parse host s)
  | JArr _ | JObj _ => s <- ToString v ;; Ok (Date_parse host s)
  end.

End Coercions.

(** ** Task model, validator and scoring engine *)

Section Engine.

Variable host : Host.

Definition isoNow (now : Z) : JsVal := JStr (DateTime.toISOString now).
Definition todayOf (now : Z) : JsVal := JStr (DateTime.today now).

Definition Qlt_bool (a b : Q) : bool := negb (Qle_bool b a).

(** [isTaskOverdue]: [new Date(task.eta) < new Date()] is false when the
    eta is not a date. *)
Definition isTaskOverdue (now : Z) (task : JsVal) : Result bool :=
  eta <- get "eta" task ;;
  completed <- get "completed" task ;;
  if negb (truthy eta) || truthy completed then Ok false
  else
    etaDate <- newDate host eta ;;
    Ok (match etaDate with
        | Some t => t <? now
        | None => false
        end).

Definition isTaskUrgent (task : JsVal) : Result bool :=
  q <- get "eisenhowerMatrix" task ;;
  Ok (strictEq q (JStr "Q1") || strictEq q (JStr "Q3")).

Definition isTaskImportant (task : JsVal) : Result bool :=
  q <- get "eisenhowerMatrix" task ;;
  Ok (strictEq q (JStr "Q1") || strictEq q (JStr "Q2")).

(** The object literal [eisenhowerScores]. *)
Definition eisenhowerScores : list (string * Q) :=
  [("Q1", 20%Q); ("Q2", 15%Q); ("Q3", 10%Q); ("Q4", 5%Q)].

(** The properties every object literal inherits from
    [Object.prototype]: eleven functions and the [__proto__] accessor,
    which yields [Object.prototype] itself. *)
Definition ObjectPrototype : list string :=
  ["constructor"; "hasOwnProperty"; "isPrototypeOf";
   "propertyIsEnumerable"; "toLocaleString"; "toString"; "valueOf";
   "__defineGetter__"; "__defineSetter__"; "__lookupGetter__";
   "__lookupSetter__"; "__proto__"].

(** What [eisenhowerScores[key]] evaluates to. *)
Inductive Member : Type :=
| OwnScore (q : Q)
| Inherited
| Missing.

Fixpoint ownScore (key : string) (table : list (string * Q)) : option Q :=
  match table with
  | [] => None
  | (k, q) :: rest => if String.eqb key k then Some q else ownScore key rest
  end.

Definition inherited (key : string) : bool :=
  existsb (String.eqb key) ObjectPrototype.

Definition member (key : string) : Member :=
  match ownScore key eisenhowerScores with
  | Some q => OwnScore q
  | None => if inherited key then Inherited else Missing
  end.

(** The urgency score of a task whose eta is [daysUntilETA] days away;
    every comparison with [NaN] is false. *)
Definition urgencyOfDays (daysUntilETA : option Q) : Q :=
  match daysUntilETA with
  | None => 5
  | Some d =>
      if Qlt_bool d 0 then 30
      else if Qle_bool d 1 then 25
      else if Qle_bool d 7 then 20
      else if Qle_bool d 30 then 10
      else 5
  end%Q.

Definition daysUntil (now : Z) (etaDate : option Z) : option Q :=
  match etaDate with
  | Some t => Some (inject_Z (t - now) / inject_Z DateTime.msPerDay)%Q
  | None => None
  end.

Definition urgencyScore (now : Z) (eta : JsVal) : Result Q :=
  if truthy eta then
    etaDate <- newDate host eta ;;
    Ok (urgencyOfDays (daysUntil now etaDate))
  else Ok 5%Q.

Definition effortOf (timeRequired : option Q) : Q :=
  match timeRequired with
  | None => 2
  | Some t =>
      if Qle_bool t 30 then 10
      else if Qle_bool t 120 then 8
      else if Qle_bool t 480 then 5
      else 2
  end%Q.

Definition numPlus (a : option Q) (b : Q) : option Q :=
  match a with Some x => Some (x + b)%Q | None => None end.

(** [calculateSmartScore].  [score] is a number until an inherited
    member of [eisenhowerScores] is added to it: [score += f] with [f] a
    function or an object concatenates strings, the effort score is
    appended to that string, and [Math.round] of a string that is not a
    numeral is [NaN]. *)
Definition calculateSmartScore (now : Z) (task : JsVal) : Result JsVal :=
  priority <- get "priority" task ;;
  p <- ToNumber host priority ;;
  let priorityScore :=
    match p with Some x => Some (x / 100 * 40)%Q | None => None end in
  let score := priorityScore in
  eta <- get "eta" task ;;
  urgency <- urgencyScore now eta ;;
  let score := numPlus score urgency in
  quadrant <- get "eisenhowerMatrix" task ;;
  key <- ToString host quadrant ;;
  timeRequired <- get "timeRequired" task ;;
  t <- ToNumber host timeRequired ;;
  let effortScore := effortOf t in
  match member key with
  | Inherited => Ok JNaN
  | OwnScore q =>
      let score := numPlus (numPlus score q) effortScore in
      Ok (match score with
          | Some s => JNum (inject_Z (MathRound (s * 10)) / 10)
          | None => JNaN
          end)
  | Missing =>
      let score := numPlus (numPlus score 15) effortScore in
      Ok (match score with
          | Some s => JNum (inject_Z (MathRound (s * 10)) / 10)
          | None => JNaN
          end)
  end.

Definition orDefault (n : option Z) (d : Z) : Z :=
  match n with
  | Some 0 | None => d
  | Some z => z
  end.

(** The body of the [try] block of [validateTask]. *)
Definition validateTaskBody (now : Z) (task : JsVal) : Result JsVal :=
  if negb (truthy task) || negb (typeofObject task) then Ok JNull
  else
    id <- get "id" task ;;
    name <- get "name" task ;;
    nameS <- ToString host (or name (JStr "")) ;;
    why <- get "why" task ;;
    whyS <- ToString host (or why (JStr "")) ;;
    eta <- get "eta" task ;;
    timeRequired <- get "timeRequired" task ;;
    minutes <- parseInt host timeRequired ;;
    priority <- get "priority" task ;;
    prio <- parseInt host priority ;;
    quadrant <- get "eisenhowerMatrix" task ;;
    completed <- get "completed" task ;;
    createdAt <- get "createdAt" task ;;
    updatedAt <- get "updatedAt" task ;;
    completedAt <- get "completedAt" task ;;
    comments <- get "comments" task ;;
    date <- get "date" task ;;
    let validatedTask : Props.t :=
      [ ("id", or id (JInt now));
        ("name", JStr (Str.trim nameS));
        ("why", JStr (Str.trim whyS));
        ("eta", or eta JNull);
        ("timeRequired", JInt (Z.max 5 (orDefault minutes 60)));
        ("priority", JInt (Z.min 100 (Z.max 1 (orDefault prio 50))));
        ("eisenhowerMatrix", or quadrant (JStr "Q2"));
        ("completed", JBool (truthy completed));
        ("createdAt", or createdAt (isoNow now));
        ("updatedAt", or updatedAt (isoNow now));
        ("completedAt", or completedAt JNull);
        ("comments",
          if isArray comments then comments
          else if truthy comments then JArr [comments] else JArr []);
        ("date", or date (todayOf now)) ] in
    overdue <- isTaskOverdue now (JObj validatedTask) ;;
    let validatedTask := Props.set "overdue" (JBool overdue) validatedTask in
    urgent <- isTaskUrgent (JObj validatedTask) ;;
    let validatedTask := Props.set "urgent" (JBool urgent) validatedTask in
    important <- isTaskImportant (JObj validatedTask) ;;
    let validatedTask :=
      Props.set "important" (JBool important) validatedTask in
    smartScore <- calculateSmartScore now (JObj validatedTask) ;;
    let validatedTask := Props.set "smartScore" smartScore validatedTask in
    Ok (JObj validatedTask).

(** [validateTask]: whatever the body throws is caught and answered
    with [null]. *)
Definition validateTask (now : Z) (task : JsVal) : JsVal :=
  match validateTaskBody now task with
  | Ok t => t
  | Throw _ => JNull
  end.

End Engine.

(** A host for the examples: no string is a date or a number. *)
Definition plainHost : Host :=
  {| Date_parse := fun _ => None;
     Number_toString := fun _ => "";
     String_toNumber := fun _ => None |}.

Definition sampleTask : JsVal :=
  JObj [("name", JStr " write report "); ("why", JStr "deadline");
        ("priority", JStr "70"); ("timeRequired", JInt 45);
        ("eisenhowerMatrix", JStr "Q1")].

(** ** [localStorage] *)

(** The text of an item: either [JSON.parse] rejects it, or it decodes to
    a tree (and [JSON.stringify] of that tree writes it).  An item holding
    the empty string behaves as an absent one everywhere in the program
    ([!existingData], [!data], [if (backup)]) and is represented by
    [None]. *)
Inductive Item : Type :=
| Garbled
| Json (v : JsVal).

Inductive Key : Type := storageKey | backupKey.

(** The two items of the task collection, and whether the host lets the
    page read and write (a blocked storage throws on access, a full one on
    [setItem]). *)
Record LocalStorage : Type := mkStorage {
  mainItem : option Item;
  backupItem : option Item;
  readable : bool;
  writable : bool
}.

(** Computations over the storage that may throw; the storage keeps what
    was written before the exception. *)
Definition M (A : Type) : Type := LocalStorage -> Result A * LocalStorage.

Definition ret {A} (a : A) : M A := fun st => (Ok a, st).
Definition throw {A} (e : Error) : M A := fun st => (Throw e, st).
Definition lift {A} (r : Result A) : M A := fun st => (r, st).

Definition mbind {A B} (m : M A) (k : A -> M B) : M B :=
  fun st =>
    match m st with
    | (Ok a, st') => k a st'
    | (Throw e, st') => (Throw e, st')
    end.

Notation "x <~ m ;; k" := (mbind m (fun x => k))
  (at level 61, m at next level, right associativity).

(** [try { body } catch (error) { handler }] *)
Definition tryCatch {A} (body : M A) (handler : Error -> M A) : M A :=
  fun st =>
    match body st with
    | (Ok a, st') => (Ok a, st')
    | (Throw e, st') => handler e st'
    end.

Definition getItem (k : Key) : M (option Item) :=
  fun st =>
    if readable st then
      (Ok (match k with storageKey => mainItem st | backupKey => backupItem st end),
       st)
    else (Throw (Err "SecurityError"), st).

Definition setItem (k : Key) (item : Item) : M unit :=
  fun st =>
    if writable st then
      (Ok tt,
       match k with
       | storageKey =>
           mkStorage (Some item) (backupItem st) (readable st) (writable st)
       | backupKey =>
           mkStorage (mainItem st) (Some item) (readable st) (writable st)
       end)
    else (Throw QuotaExceeded, st).

Definition JSON_parse (item : Item) : Result JsVal :=
  match item with
  | Garbled => Throw SyntaxError
  | Json v => Ok v
  end.

Definition JSON_stringify (v : JsVal) : Item := Json v.

(** [o.k = v] in strict code (a class body): plain objects take the
    property, arrays take it as an extra property that [JSON.stringify]
    does not write, and everything else throws. *)
Definition assignProp (k : string) (v : JsVal) (o : JsVal) : Result JsVal :=
  match o with
  | JObj ps => Ok (JObj (Props.set k v ps))
  | JArr xs => Ok (JArr xs)
  | _ => Throw TypeError
  end.

(** The elements of a value used as an array ([xs.map], [xs.filter],
    [xs.push], ...): anything but an array has no such method. *)
Definition elements (v : JsVal) : Result (list JsVal) :=
  match v with
  | JArr xs => Ok xs
  | _ => Throw TypeError
  end.

(** [xs.findIndex(p)]; [None] is [-1]. *)
Fixpoint findIndexM {A} (p : A -> Result bool) (xs : list A)
  : Result (option nat) :=
  match xs with
  | [] => Ok None
  | x :: rest =>
      b <- p x ;;
      if b then Ok (Some O)
      else
        r <- findIndexM p rest ;;
        Ok (match r with Some i => Some (S i) | None => None end)
  end.

(** [xs[i] = v] for an index inside the array *)
Fixpoint setNth {A} (i : nat) (v : A) (xs : list A) : list A :=
  match xs, i with
  | [], _ => []
  | _ :: rest, O => v :: rest
  | x :: rest, S j => x :: setNth j v rest
  end.

(** ** [class StorageManager] *)

Section StorageManager.

Variable host : Host.

(** How many nested calls of [getAllData] the call stack has room for. *)
Variable depth : nat.

Definition version : JsVal := JStr "1.0.0".

(** The empty collection of [initializeStorage] and
    [handleStorageError]. *)
Definition initialData (now : Z) : JsVal :=
  JObj [("version", version); ("createdAt", isoNow now);
        ("lastModified", isoNow now); ("tasks", JArr []);
        ("nextId", JInt 1)].

(** [if (!data.k) data.k = v] *)
Definition backfill (k : string) (v : JsVal) (data : JsVal) : Result JsVal :=
  cur <- get k data ;;
  if truthy cur then Ok data else assignProp k v data.

Definition migrateObject (now : Z) (data : JsVal) : Result JsVal :=
  data <- backfill "version" version data ;;
  data <- backfill "createdAt" (isoNow now) data ;;
  data <- backfill "lastModified" (isoNow now) data ;;
  tasks <- get "tasks" data ;;
  data <- (if isArray tasks then Ok data
           else assignProp "tasks" (JArr []) data) ;;
  nextId <- get "nextId" data ;;
  data <- (if truthy nextId then Ok data
           else
             tasks <- get "tasks" data ;;
             xs <- elements tasks ;;
             ids <- mapM (get "id") xs ;;
             m <- MathMax0 host ids ;;
             assignProp "nextId" (ofNumber (numPlus m 1)) data) ;;
  tasks <- get "tasks" data ;;
  xs <- elements tasks ;;
  data <- assignProp "tasks"
            (JArr (filter truthy (map (validateTask host now) xs))) data ;;
  assignProp "lastModified" (isoNow now) data.

(** [validateAndMigrate]; its [catch] rethrows.  On an array every field
    is an extra property of the array, which is written back as the
    array it was. *)
Definition validateAndMigrate (now : Z) (data : JsVal) : M unit :=
  match data with
  | JArr _ => setItem storageKey (JSON_stringify data)
  | _ =>
      migrated <~ lift (migrateObject now data) ;;
      setItem storageKey (JSON_stringify migrated)
  end.

Definition handleStorageError (now : Z) : M JsVal :=
  tryCatch
    (backup <~ getItem backupKey ;;
     match backup with
     | Some item => lift (JSON_parse item)
     | None => ret (initialData now)
     end)
    (fun _ => ret (initialData now)).

Definition initializeStorage (now : Z) : M unit :=
  tryCatch
    (existingData <~ getItem storageKey ;;
     match existingData with
     | None => setItem storageKey (JSON_stringify (initialData now))
     | Some item =>
         data <~ lift (JSON_parse item) ;;
         validateAndMigrate now data
     end)
    (fun _ => _ <~ handleStorageError now ;; ret tt).

(** [getAllData] calls itself after [initializeStorage]; when the stack
    has no room left the call throws a RangeError inside the [try]
    block. *)
Fixpoint getAllDataWith (room : nat) (now : Z) : M JsVal :=
  tryCatch
    (data <~ getItem storageKey ;;
     match data with
     | None =>
         _ <~ initializeStorage now ;;
         match room with
         | O => throw RangeError
         | S r => getAllDataWith r now
         end
     | Some item => lift (JSON_parse item)
     end)
    (fun _ => handleStorageError now).

Definition getAllData (now : Z) : M JsVal := getAllDataWith depth now.

Definition saveAllData (now : Z) (data : JsVal) : M bool :=
  tryCatch
    (currentData <~ getItem storageKey ;;
     _ <~ match currentData with
          | Some item => setItem backupKey item
          | None => ret tt
          end ;;
     data <~ lift (assignProp "lastModified" (isoNow now) data) ;;
     _ <~ setItem storageKey (JSON_stringify data) ;;
     ret true)
    (fun _ => _ <~ handleStorageError now ;; ret false).

(** [getAllTasks]: [data.tasks || []] *)
Definition getAllTasks (now : Z) : M JsVal :=
  data <~ getAllData now ;;
  tasks <~ lift (get "tasks" data) ;;
  ret (or tasks (JArr [])).

Definition message (text : string) : Error := Err text.

Definition addTask (now : Z) (taskData : JsVal) : M JsVal :=
  data <~ getAllData now ;;
  nextId <~ lift (get "nextId" data) ;;
  let newTask :=
    validateTask host now
      (JObj (Props.set "date" (todayOf now)
            (Props.set "completed" (JBool false)
            (Props.set "updatedAt" (isoNow now)
            (Props.set "createdAt" (isoNow now)
            (Props.set "id" nextId (Props.own taskData))))))) in
  name <~ lift (if truthy newTask then get "name" newTask else Ok JUndefined) ;;
  why <~ lift (if truthy newTask then get "why" newTask else Ok JUndefined) ;;
  if negb (truthy newTask) || negb (truthy name) || negb (truthy why)
  then throw (message "Task name and why are required")
  else
    tasks <~ lift (get "tasks" data) ;;
    xs <~ lift (elements tasks) ;;
    data <~ lift (assignProp "tasks" (JArr (xs ++ [newTask])) data) ;;
    n <~ lift (ToNumber host nextId) ;;
    data <~ lift (assignProp "nextId" (ofNumber (numPlus n 1)) data) ;;
    saved <~ saveAllData now data ;;
    if saved then ret newTask else throw (message "Failed to save task").

Definition hasId (taskId : JsVal) (task : JsVal) : Result bool :=
  id <- get "id" task ;; Ok (strictEq id taskId).

Definition updateTask (now : Z) (taskId updates : JsVal) : M JsVal :=
  data <~ getAllData now ;;
  tasks <~ lift (get "tasks" data) ;;
  xs <~ lift (elements tasks) ;;
  taskIndex <~ lift (findIndexM (hasId taskId) xs) ;;
  match taskIndex with
  | None => throw (message "Task not found")
  | Some i =>
      let currentTask := nth i xs JUndefined in
      patchCompleted <~ lift (get "completed" updates) ;;
      wasCompleted <~ lift (get "completed" currentTask) ;;
      priorCompletedAt <~ lift (get "completedAt" currentTask) ;;
      let completedAt :=
        if truthy patchCompleted && negb (truthy wasCompleted)
        then isoNow now else priorCompletedAt in
      let updatedTask :=
        validateTask host now
          (JObj (Props.set "completedAt" completedAt
                (Props.set "updatedAt" (isoNow now)
                (Props.set "id" taskId
                (Props.assign (Props.own currentTask)
                              (Props.own updates)))))) in
      if negb (truthy updatedTask) then throw (message "Invalid task data")
      else
        data <~ lift (assignProp "tasks" (JArr (setNth i updatedTask xs)) data) ;;
        saved <~ saveAllData now data ;;
        if saved then ret updatedTask
        else throw (message "Failed to save task update")
  end.

Definition deleteTask (now : Z) (taskId : JsVal) : M bool :=
  data <~ getAllData now ;;
  tasks <~ lift (get "tasks" data) ;;
  xs <~ lift (elements tasks) ;;
  kept <~ lift (filterM (fun task => b <- hasId taskId task ;; Ok (negb b)) xs) ;;
  data <~ lift (assignProp "tasks" (JArr kept) data) ;;
  if (List.length kept =? List.length xs)%nat
  then throw (message "Task not found")
  else
    saved <~ saveAllData now data ;;
    if saved then ret true else throw (message "Failed to save after deletion").

(** The task [addComment] found, with the comment pushed and
    [updatedAt] stamped.  An array found as a task takes both as extra
    properties and is written back unchanged. *)
Definition withComment (now : Z) (commentObj task : JsVal) : Result JsVal :=
  match task with
  | JArr _ => Ok task
  | _ =>
      comments <- get "comments" task ;;
      task <- (if isArray comments then Ok task
               else assignProp "comments" (JArr []) task) ;;
      comments <- get "comments" task ;;
      cs <- elements comments ;;
      task <- assignProp "comments" (JArr (cs ++ [commentObj])) task ;;
      assignProp "updatedAt" (isoNow now) task
  end.

Definition addComment (now : Z) (taskId comment : JsVal) : M JsVal :=
  data <~ getAllData now ;;
  tasks <~ lift (get "tasks" data) ;;
  xs <~ lift (elements tasks) ;;
  found <~ lift (findIndexM (hasId taskId) xs) ;;
  let task := match found with Some i => nth i xs JUndefined | None => JUndefined end in
  if negb (truthy task) then throw (message "Task not found")
  else
    text <~ lift (ToString host comment) ;;
    let commentObj :=
      JObj [("id", JInt now); ("text", JStr (Str.trim text));
            ("timestamp", isoNow now)] in
    if negb (truthy (JStr (Str.trim text)))
    then throw (message "Comment cannot be empty")
    else
      task <~ lift (withComment now commentObj task) ;;
      let i := match found with Some i => i | None => O end in
      data <~ lift (assignProp "tasks" (JArr (setNth i task xs)) data) ;;
      saved <~ saveAllData now data ;;
      if saved then ret commentObj
      else throw (message "Failed to save comment").

(** [taskIds.includes(id)] *)
Definition includesId (taskIds : list JsVal) (id : JsVal) : bool :=
  existsb (fun x => sameValueZero x id) taskIds.

(** [new Map(entries).get(key)]: a later entry replaces an earlier one
    with the same key. *)
Fixpoint mapGet (key : JsVal) (entries : list (JsVal * JsVal)) : JsVal :=
  match entries with
  | [] => JUndefined
  | (k, v) :: rest =>
      if existsb (fun e => sameValueZero (fst e) key) rest
      then mapGet key rest
      else if sameValueZero k key then v else JUndefined
  end.

(** The [forEach] over [taskIds] that fills [reorderedTasks]. *)
Fixpoint reordered (now : Z) (taskMap : list (JsVal * JsVal))
         (index : Z) (taskIds : list JsVal) : list JsVal :=
  match taskIds with
  | [] => []
  | taskId :: rest =>
      let task := mapGet taskId taskMap in
      let tail := reordered now taskMap (index + 1) rest in
      if truthy task
      then JObj (Props.set "updatedAt" (isoNow now)
                (Props.set "priority" (JInt (index + 1))
                (Props.own task))) :: tail
      else tail
  end.

Definition reorderTasks (now : Z) (taskIds : list JsVal) : M bool :=
  data <~ getAllData now ;;
  tasks <~ lift (get "tasks" data) ;;
  xs <~ lift (elements tasks) ;;
  taskMap <~ lift (mapM (fun task => id <- get "id" task ;; Ok (id, task)) xs) ;;
  untouchedTasks <~
    lift (filterM (fun task =>
                     id <- get "id" task ;; Ok (negb (includesId taskIds id)))
                  xs) ;;
  let reorderedTasks := reordered now taskMap 0 taskIds in
  data <~ lift (assignProp "tasks" (JArr (reorderedTasks ++ untouchedTasks)) data) ;;
  saved <~ saveAllData now data ;;
  if saved then ret true
  else throw (message "Failed to save reordered tasks").

(** The primitive a relational operator compares. *)
Definition toPrimitive (v : JsVal) : Result JsVal :=
  match v with
  | JArr _ | JObj _ => s <- ToString host v ;; Ok (JStr s)
  | _ => Ok v
  end.








Definition importData (now : Z) (jsonData : Item) : M JsVal :=
  importedData <~ lift (JSON_parse jsonData) ;;
  tasks <~ lift (get "tasks" importedData) ;;
  if negb (truthy tasks) || negb (isArray tasks)
  then throw (message "Invalid data format")
  else
    currentData <~ getAllData now ;;
    _ <~ setItem backupKey (JSON_stringify currentData) ;;
    xs <~ lift (elements tasks) ;;
    let processedTasks := filter truthy (map (validateTask host now) xs) in
    createdAt <~ lift (get "createdAt" importedData) ;;
    ids <~ lift (mapM (get "id") processedTasks) ;;
    m <~ lift (MathMax0 host ids) ;;
    let newData :=
      JObj [("version", version);
            ("createdAt", or createdAt (isoNow now));
            ("lastModified", isoNow now);
            ("tasks", JArr processedTasks);
            ("nextId", ofNumber (numPlus m 1))] in
    saved <~ saveAllData now newData ;;
    if saved then
      let count := Z.of_nat (List.length processedTasks) in
      ret (JObj [("success", JBool true); ("imported", JInt count);
                 ("message",
                   JStr ("Successfully imported " ++ Str.ofZ count
                         ++ " tasks"))])
    else throw (message "Failed to save imported data").

End StorageManager.

(** ** Vocabulary of the specification *)

Local Open Scope Q_scope.

(** The task of the examples about quadrants: its quadrant is the name of
    a member every object literal inherits. *)
Definition inheritedQuadrantTask : JsVal :=
  JObj [("name", JStr "plan"); ("why", JStr "review");
        ("eisenhowerMatrix", JStr "constructor")].

(** The Eisenhower term as the specification words it: Q1 is 20, Q2 is
    15, Q3 is 10, Q4 is 5, and an unrecognized quadrant counts 15. *)
Definition eisenhowerTerm (key : string) : Q :=
  if String.eqb key "Q1" then 20
  else if String.eqb key "Q2" then 15
  else if String.eqb key "Q3" then 10
  else if String.eqb key "Q4" then 5
  else 15.

(** Rounding to one decimal place, halves upwards. *)
Definition roundHalfUpTenths (x : Q) : Q :=
  inject_Z (Qfloor (x * 10 + (1 # 2))) / 10.

(** The sum of the four terms the specification lists, rounded. *)
Definition smartScoreSpec (priority urgency : Q) (key : string)
           (timeRequired : Q) : Q :=
  roundHalfUpTenths
    (priority / 100 * 40 + urgency + eisenhowerTerm key
     + effortOf (Some timeRequired)).

(** The urgency term as the specification words it, on the days [d]
    until the eta. *)
Inductive UrgencySpec (d : Q) : Q -> Prop :=
| overdue_30 : d < 0 -> UrgencySpec d 30
| within_day_25 : 0 <= d -> d <= 1 -> UrgencySpec d 25
| within_week_20 : 1 < d -> d <= 7 -> UrgencySpec d 20
| within_month_10 : 7 < d -> d <= 30 -> UrgencySpec d 10
| far_future_5 : 30 < d -> UrgencySpec d 5.

(** The field [k] of a value that passed [!task || typeof task !==
    'object'] (an object or an array, which has none of the fields). *)
Definition rawField (k : string) (task : JsVal) : JsVal :=
  match task with
  | JObj ps => field k ps
  | _ => JUndefined
  end.

(** The thirteen normalized fields of [validatedTask], given what the
    four conversions of the validator returned. *)
Definition sourceFields (now : Z) (task : JsVal) (nameS whyS : string)
           (minutes prio : option Z) : Props.t :=
  [ ("id", or (rawField "id" task) (JInt now));
    ("name", JStr (Str.trim nameS));
    ("why", JStr (Str.trim whyS));
    ("eta", or (rawField "eta" task) JNull);
    ("timeRequired", JInt (Z.max 5 (orDefault minutes 60)));
    ("priority", JInt (Z.min 100 (Z.max 1 (orDefault prio 50))));
    ("eisenhowerMatrix", or (rawField "eisenhowerMatrix" task) (JStr "Q2"));
    ("completed", JBool (truthy (rawField "completed" task)));
    ("createdAt", or (rawField "createdAt" task) (isoNow now));
    ("updatedAt", or (rawField "updatedAt" task) (isoNow now));
    ("completedAt", or (rawField "completedAt" task) JNull);
    ("comments",
      if isArray (rawField "comments" task) then rawField "comments" task
      else if truthy (rawField "comments" task)
           then JArr [rawField "comments" task] else JArr []);
    ("date", or (rawField "date" task) (todayOf now)) ].

Definition derivedFields (overdue urgent important : bool) (score : JsVal)
  : Props.t :=
  [ ("overdue", JBool overdue); ("urgent", JBool urgent);
    ("important", JBool important); ("smartScore", score) ].

(** The derived fields as functions of the fields they read. *)
Definition overdueOf (host : Host) (now : Z) (eta completed : JsVal)
  : Result bool :=
  if negb (truthy eta) || truthy completed then Ok false
  else
    etaDate <- newDate host eta ;;
    Ok (match etaDate with
        | Some t => (t <? now)%Z
        | None => false
        end).

Definition urgentOf (quadrant : JsVal) : bool :=
  strictEq quadrant (JStr "Q1") || strictEq quadrant (JStr "Q3").

Definition importantOf (quadrant : JsVal) : bool :=
  strictEq quadrant (JStr "Q1") || strictEq quadrant (JStr "Q2").

(** A task some validation accepted, at an instant after the epoch. *)
Definition Accepted (host : Host) (t : JsVal) : Prop :=
  exists (now0 : Z) (raw : JsVal),
    (0 < now0)%Z /\ validateTask host now0 raw = t /\ truthy t = true.

(** A decoded collection: an object whose [tasks] is the array [xs] of
    accepted tasks. *)
Definition Collection (host : Host) (data : JsVal) (xs : list JsVal) : Prop :=
  exists ps, data = JObj ps /\ field "tasks" ps = JArr xs /\
             Forall (Accepted host) xs.

(** The fields of a task that the validator converts to a string, a
    number or a date. *)
Definition convertedFields : list string :=
  ["name"; "why"; "eta"; "timeRequired"; "priority"; "eisenhowerMatrix"].

(** [String(v)] returns. *)
Definition converts (host : Host) (v : JsVal) : Prop :=
  isOk (ToString host v) = true.



(** [xs.findIndex(p)] for a test that cannot throw. *)
Fixpoint findIndex {A} (p : A -> bool) (xs : list A) : option nat :=
  match xs with
  | [] => None
  | x :: rest =>
      if p x then Some O
      else match findIndex p rest with
           | Some i => Some (S i)
           | None => None
           end
  end.

(** The test of [updateTask], [deleteTask] and [addComment] on a stored
    task. *)
Definition idIs (taskId : JsVal) (task : JsVal) : bool :=
  strictEq (rawField "id" task) taskId.

(** The storage of a first visit, and the storage after one task was
    added to it. *)
Definition emptyStorage : LocalStorage := mkStorage None None true true.

Definition oneTaskStorage : LocalStorage :=
  snd (addTask plainHost 1 1000 sampleTask emptyStorage).



(** The collection [oneTaskStorage] holds, and its tasks. *)
Definition oneTaskData : JsVal :=
  match mainItem oneTaskStorage with
  | Some (Json v) => v
  | _ => JNull
  end.

Definition oneTaskList : list JsVal :=
  match rawField "tasks" oneTaskData with
  | JArr xs => xs
  | _ => []
  end.

Definition oneTaskProps : Props.t := Props.own oneTaskData.

(** [reorder] as the specification words it. *)


(** A task given a new priority and stamped. *)
Definition renumber (now : Z) (position : Z) (task : JsVal) : JsVal :=
  JObj (Props.set "updatedAt" (isoNow now)
       (Props.set "priority" (JInt position) (Props.own task))).




(** [search] as the specification words it, on the search term. *)


Definition arrayOf (v : JsVal) : list JsVal :=
  match v with
  | JArr xs => xs
  | _ => []
  end.








(** The read path as the specification words it. *)

(** Error recovery: the decoded backup if there is one that decodes, a
    fresh empty collection otherwise. *)
Definition recovered (now : Z) (st : LocalStorage) : JsVal :=
  if readable st then
    match backupItem st with
    | Some (Json v) => v
    | _ => initialData now
    end
  else initialData now.

(** What [load] returns: the decoded main item; after a failure to read
    or to decode it, the recovery; when it is absent, the collection that
    [initialize] creates, or the recovery if the collection could not be
    written or read again. *)
Definition loaded (depth : nat) (now : Z) (st : LocalStorage) : JsVal :=
  if readable st then
    match mainItem st with
    | Some (Json v) => v
    | Some Garbled => recovered now st
    | None =>
        if writable st then
          match depth with
          | O => recovered now st
          | S _ => initialData now
          end
        else recovered now st
    end
  else initialData now.

(** A value the repository can use as a collection: an object whose
    [tasks] is an array. *)
Definition usableCollection (v : JsVal) : bool :=
  match v with
  | JObj ps => isArray (field "tasks" ps)
  | _ => false
  end.

Definition usableItem (item : option Item) : bool :=
  match item with
  | Some (Json v) => usableCollection v
  | _ => true
  end.

(** A storage whose main item is the text [null]. *)
Definition nullStorage : LocalStorage :=
  mkStorage (Some (Json JNull)) None true true.

(** Migration as the code performs it on [nextId]: kept when it is
    there, and otherwise one more than the largest of 0 and the ids of
    the stored entries, read before the entries are validated. *)
Definition migratedNextId (host : Host) (ps : Props.t) : Result JsVal :=
  if truthy (field "nextId" ps) then Ok (field "nextId" ps)
  else
    ids <- mapM (get "id") (arrayOf (field "tasks" ps)) ;;
    m <- MathMax0 host ids ;;
    Ok (ofNumber (numPlus m 1)).

(** [if (!data.k) data.k = v] on the properties of an object. *)
Definition backfilled (k : string) (v : JsVal) (ps : Props.t) : Props.t :=
  if truthy (field k ps) then ps else Props.set k v ps.

(** A storage reached by adding two tasks and deleting the second: the
    collection holds task 1 and [nextId] is 3. *)
Definition afterDeleteStorage : LocalStorage :=
  snd (deleteTask plainHost 1 3000 (JInt 2)
         (snd (addTask plainHost 1 2000 sampleTask oneTaskStorage))).

Definition mainProps (st : LocalStorage) : Props.t :=
  match mainItem st with
  | Some (Json v) => Props.own v
  | _ => []
  end.

(** The properties of a migrated object whose [nextId] becomes [n]. *)
Definition migratedProps (host : Host) (now : Z) (ps : Props.t) (n : JsVal)
  : Props.t :=
  let ps3 := backfilled "lastModified" (isoNow now)
               (backfilled "createdAt" (isoNow now)
                  (backfilled "version" version ps)) in
  let ps4 := if isArray (field "tasks" ps3) then ps3
             else Props.set "tasks" (JArr []) ps3 in
  let ps5 := if truthy (field "nextId" ps4) then ps4
             else Props.set "nextId" n ps4 in
  Props.set "lastModified" (isoNow now)
    (Props.set "tasks"
       (JArr (filter truthy
                (map (validateTask host now) (arrayOf (field "tasks" ps)))))
       ps5).

(** The invariant of a collection. *)

(** The ids of the stored tasks. *)
Definition idsOf (xs : list JsVal) : list JsVal := map (rawField "id") xs.

(** [nextId] is greater than the id. *)
Definition below (n : Q) (id : JsVal) : bool :=
  match id with
  | JNum i => Qlt_bool i n
  | _ => false
  end.

(** No two of the values are [===]. *)
Fixpoint distinct (vs : list JsVal) : bool :=
  match vs with
  | [] => true
  | v :: rest => negb (existsb (strictEq v) rest) && distinct rest
  end.


(** An id the repository assigns: a number other than 0. *)
Definition assigned (id : JsVal) : bool :=
  match id with
  | JNum i => negb (Qeq_bool i 0)
  | _ => false
  end.

(** The invariant together with what every collection the repository
    writes also has: a positive [nextId] and ids other than 0. *)
Definition wellFormed (data : JsVal) : bool :=
  match data with
  | JObj ps =>
      match field "tasks" ps, field "nextId" ps with
      | JArr xs, JNum n =>
          Qlt_bool 0 n && forallb assigned (idsOf xs)
          && forallb (below n) (idsOf xs) && distinct (idsOf xs)
      | _, _ => false
      end
  | _ => false
  end.


(** The mutating operations of the repository. *)
Inductive Op : Type :=
| OpAdd (taskData : JsVal)
| OpUpdate (taskId patch : JsVal)
| OpDelete (taskId : JsVal)
| OpComment (taskId comment : JsVal)
| OpReorder (orderedIds : list JsVal)
| OpImport (jsonData : Item)
| OpMigrate.

(** The storage an operation leaves, whether it returns or throws. *)
Definition run (host : Host) (depth : nat) (now : Z) (op : Op)
           (st : LocalStorage) : LocalStorage :=
  match op with
  | OpAdd taskData => snd (addTask host depth now taskData st)
  | OpUpdate taskId patch => snd (updateTask host depth now taskId patch st)
  | OpDelete taskId => snd (deleteTask host depth now taskId st)
  | OpComment taskId comment =>
      snd (addComment host depth now taskId comment st)
  | OpReorder orderedIds => snd (reorderTasks host depth now orderedIds st)
  | OpImport jsonData => snd (importData host depth now jsonData st)
  | OpMigrate => snd (initializeStorage host now st)
  end.



(** The collection in the main item of a storage. *)
Definition mainData (st : LocalStorage) : JsVal :=
  match mainItem st with
  | Some (Json v) => v
  | _ => JUndefined
  end.


Definition initialStorage : LocalStorage :=
  mkStorage (Some (Json (initialData 1000))) None true true.


(** ** The rest of [class StorageManager] *)

(** [localStorage.removeItem]: a blocked storage throws on access. *)
Definition removeItem (k : Key) : M unit :=
fun st =>
  if readable st then
    (Ok tt,
     match k with
     | storageKey => mkStorage None (backupItem st) (readable st) (writable st)
     | backupKey => mkStorage (mainItem st) None (readable st) (writable st)
     end)
  else (Throw (Err "SecurityError"), st).

Section Reports.

Variable host : Host.
Variable depth : nat.

(** [getTasksForDate(date = null)] *)
Definition getTasksForDate (now : Z) (date : JsVal) : M JsVal :=
let targetDate := or date (todayOf now) in
allTasks <~ getAllTasks host depth now ;;
xs <~ lift (elements allTasks) ;;
found <~ lift (filterM (fun task =>
                          d <- get "date" task ;; Ok (strictEq d targetDate))
                       xs) ;;
ret (JArr found).

Definition getTodaysTasks (now : Z) : M JsVal := getTasksForDate now JNull.

(** [a + b]: strings concatenate as soon as one operand is a string once
    objects are converted, everything else adds as numbers. *)
Definition jsAdd (a b : JsVal) : Result JsVal :=
pa <- toPrimitive host a ;;
pb <- toPrimitive host b ;;
match pa, pb with
| JStr _, _ | _, JStr _ =>
    sa <- ToString host pa ;; sb <- ToString host pb ;; Ok (JStr (sa ++ sb))
| _, _ =>
    x <- ToNumber host pa ;;
    y <- ToNumber host pb ;;
    Ok (match x, y with
        | Some p, Some q => JNum (p + q)
        | _, _ => JNaN
        end)
end.

(** [xs.reduce((sum, task) => sum + term(task), 0)] *)
Fixpoint reduceSum (term : JsVal -> Result JsVal) (sum : JsVal)
         (xs : list JsVal) : Result JsVal :=
match xs with
| [] => Ok sum
| task :: rest =>
    t <- term task ;; sum' <- jsAdd sum t ;; reduceSum term sum' rest
end.

Definition timeOf (task : JsVal) : Result JsVal :=
t <- get "timeRequired" task ;; Ok (or t (JInt 0)).

Definition isCompleted (task : JsVal) : Result bool :=
c <- get "completed" task ;; Ok (truthy c).

Definition countWhere (p : JsVal -> Result bool) (xs : list JsVal)
  : Result JsVal :=
ys <- filterM p xs ;; Ok (JInt (Z.of_nat (List.length ys))).

Definition inQuadrant (q : string) (task : JsVal) : Result bool :=
v <- get "eisenhowerMatrix" task ;; Ok (strictEq v (JStr q)).

(** [sum / tasks.length] *)
Definition average (sum : JsVal) (count : nat) : Result JsVal :=
n <- ToNumber host sum ;;
Ok (match n with
    | Some q => JNum (q / inject_Z (Z.of_nat count))
    | None => JNaN
    end).

(** [getTaskStats(date = null)] *)
Definition getTaskStats (now : Z) (date : JsVal) : M JsVal :=
tasks <~ (if truthy date then getTasksForDate now date
          else getAllTasks host depth now) ;;
xs <~ lift (elements tasks) ;;
completed <~ lift (countWhere isCompleted xs) ;;
pending <~ lift (countWhere (fun task => c <- isCompleted task ;; Ok (negb c))
                            xs) ;;
overdue <~ lift (countWhere
                   (fun task =>
                      o <- get "overdue" task ;;
                      if truthy o then c <- isCompleted task ;; Ok (negb c)
                      else Ok false)
                   xs) ;;
q1 <~ lift (countWhere (inQuadrant "Q1") xs) ;;
q2 <~ lift (countWhere (inQuadrant "Q2") xs) ;;
q3 <~ lift (countWhere (inQuadrant "Q3") xs) ;;
q4 <~ lift (countWhere (inQuadrant "Q4") xs) ;;
totalTime <~ lift (reduceSum timeOf (JInt 0) xs) ;;
done <~ lift (filterM isCompleted xs) ;;
completedTime <~ lift (reduceSum timeOf (JInt 0) done) ;;
avgSmartScore <~
  lift (match xs with
        | [] => Ok (JInt 0)
        | _ =>
            sum <- reduceSum (get "smartScore") (JInt 0) xs ;;
            average sum (List.length xs)
        end) ;;
ret (JObj [("total", JInt (Z.of_nat (List.length xs)));
           ("completed", completed);
           ("pending", pending);
           ("overdue", overdue);
           ("byEisenhower",
             JObj [("Q1", q1); ("Q2", q2); ("Q3", q3); ("Q4", q4)]);
           ("totalTime", totalTime);
           ("completedTime", completedTime);
           ("avgSmartScore", avgSmartScore)]).

(** [exportData]; the text it returns is the tree it prints. *)
Definition exportData (now : Z) : M Item :=
data <~ getAllData host depth now ;;
ret (JSON_stringify
       (JObj (Props.set "exportVersion" version
             (Props.set "exportedAt" (isoNow now) (Props.own data))))).

(** [clearAllData]: any exception is answered with [false]. *)
Definition clearAllData (now : Z) : M bool :=
tryCatch
  (currentData <~ getAllData host depth now ;;
   _ <~ setItem backupKey (JSON_stringify currentData) ;;
   _ <~ removeItem storageKey ;;
   _ <~ initializeStorage host now ;;
   ret true)
  (fun _ => ret false).

(** [restoreFromBackup]; its [catch] rethrows. *)
Definition restoreFromBackup (now : Z) : M JsVal :=
backupData <~ getItem backupKey ;;
match backupData with
| None => throw (message "No backup found")
| Some item =>
    data <~ lift (JSON_parse item) ;;
    _ <~ validateAndMigrate host now data ;;
    ret (JObj [("success", JBool true);
               ("message", JStr "Data restored successfully from backup")])
end.

End Reports.

(** ** Vocabulary of the further properties *)

(** The object literal that [addTask] validates. *)
Definition newTaskInput (now : Z) (nextId taskData : JsVal) : JsVal :=
  JObj (Props.set "date" (todayOf now)
       (Props.set "completed" (JBool false)
       (Props.set "updatedAt" (isoNow now)
       (Props.set "createdAt" (isoNow now)
       (Props.set "id" nextId (Props.own taskData)))))).

(** The comment object of [addComment]. *)
Definition commentObject (now : Z) (text : string) : JsVal :=
  JObj [("id", JInt now); ("text", JStr (Str.trim text));
        ("timestamp", isoNow now)].

(** A storage that can be read and written. *)
Definition healthy (st : LocalStorage) : Prop :=
  readable st = true /\ writable st = true.

(** A computation that leaves a storage it cannot write as it is. *)
Definition Framed {A} (m : M A) : Prop :=
  forall st, writable st = false -> snd (m st) = st.

(** The number a task stores under a field, 0 when it is no number. *)
Definition numberOf (v : JsVal) : Q :=
  match v with
  | JNum q => q
  | _ => 0
  end.

Fixpoint sumOf (f : JsVal -> Q) (xs : list JsVal) : Q :=
  match xs with
  | [] => 0
  | x :: rest => f x + sumOf f rest
  end.

(** The storage with two tasks, and the one after the second task was
    deleted. *)
Definition twoTaskStorage : LocalStorage :=
  snd (addTask plainHost 1 2000 sampleTask oneTaskStorage).

(** A computation that throws on every storage it cannot write. *)
Definition Fails {A} (m : M A) : Prop :=
  forall st, writable st = false -> isOk (fst (m st)) = false.

(** An entry of [tasks] that is an object literal. *)
Definition isObject (t : JsVal) : bool :=
  match t with
  | JObj _ => true
  | _ => false
  end.

(** The properties of a task after [addComment] pushed a comment and
    stamped it. *)
Definition commented (now : Z) (commentObj : JsVal) (tp : Props.t)
  : Props.t :=
  Props.set "updatedAt" (isoNow now)
    (Props.set "comments"
       (JArr (arrayOf (field "comments" tp) ++ [commentObj])) tp).

(** * Properties *)

(** ** Helpers *)

Lemma Qle_bool_false (a b : Q) : Qle_bool a b = false -> b < a.
Proof.
  intros H. apply Qnot_le_lt. intros Hle.
  apply Qle_bool_iff in Hle. congruence.
Qed.

Lemma Qlt_bool_true (a b : Q) : Qlt_bool a b = true -> a < b.
Proof.
  unfold Qlt_bool. intros H. apply Qle_bool_false.
  now destruct (Qle_bool b a).
Qed.

Lemma Qlt_bool_false (a b : Q) : Qlt_bool a b = false -> b <= a.
Proof.
  unfold Qlt_bool. intros H. apply Qle_bool_iff.
  now destruct (Qle_bool b a).
Qed.

(** The urgency score follows the five cases of the specification. *)
Lemma urgencyOfDays_spec (d : Q) : UrgencySpec d (urgencyOfDays (Some d)).
Proof.
  unfold urgencyOfDays.
  destruct (Qlt_bool d 0) eqn:H0.
  { apply overdue_30. now apply Qlt_bool_true. }
  apply Qlt_bool_false in H0.
  destruct (Qle_bool d 1) eqn:H1.
  { apply within_day_25; [assumption | now apply Qle_bool_iff]. }
  apply Qle_bool_false in H1.
  destruct (Qle_bool d 7) eqn:H7.
  { apply within_week_20; [assumption | now apply Qle_bool_iff]. }
  apply Qle_bool_false in H7.
  destruct (Qle_bool d 30) eqn:H30.
  { apply within_month_10; [assumption | now apply Qle_bool_iff]. }
  apply far_future_5. now apply Qle_bool_false.
Qed.

Lemma urgencyOfDays_bounds (d : option Q) :
  5 <= urgencyOfDays d /\ urgencyOfDays d <= 30.
Proof.
  unfold urgencyOfDays. destruct d as [d|]; [|split; discriminate].
  destruct (Qlt_bool d 0); [split; discriminate|].
  destruct (Qle_bool d 1); [split; discriminate|].
  destruct (Qle_bool d 7); [split; discriminate|].
  destruct (Qle_bool d 30); split; discriminate.
Qed.

Lemma effortOf_bounds (t : option Q) : 2 <= effortOf t /\ effortOf t <= 10.
Proof.
  unfold effortOf. destruct t as [t|]; [|split; discriminate].
  destruct (Qle_bool t 30); [split; discriminate|].
  destruct (Qle_bool t 120); [split; discriminate|].
  destruct (Qle_bool t 480); split; discriminate.
Qed.

Lemma eisenhowerTerm_bounds (key : string) :
  5 <= eisenhowerTerm key /\ eisenhowerTerm key <= 20.
Proof.
  unfold eisenhowerTerm.
  repeat match goal with
         | |- context [if ?b then _ else _] => destruct b
         end; split; discriminate.
Qed.

(** A quadrant that is not an inherited member scores what the
    specification says. *)
Lemma member_eisenhowerTerm (key : string) :
  inherited key = false ->
  member key = OwnScore (eisenhowerTerm key) \/
  (member key = Missing /\ eisenhowerTerm key = 15).
Proof.
  intros Hinh. unfold member, eisenhowerTerm, eisenhowerScores, ownScore.
  destruct (String.eqb key "Q1"); [now left|].
  destruct (String.eqb key "Q2"); [now left|].
  destruct (String.eqb key "Q3"); [now left|].
  destruct (String.eqb key "Q4"); [now left|].
  rewrite Hinh. now right.
Qed.

(** ** The scoring engine *)

(** Division by the constants of the program, as a product for [lra]. *)
Ltac qconst :=
  unfold Qdiv in *;
  change (/ 10) with (1 # 10) in *;
  change (/ 100) with (1 # 100) in *;
  change (inject_Z 1) with 1 in *.

Lemma roundHalfUpTenths_mono (x y : Q) :
  x <= y -> roundHalfUpTenths x <= roundHalfUpTenths y.
Proof.
  intros Hxy. unfold roundHalfUpTenths.
  assert (H : (Qfloor (x * 10 + (1 # 2)) <= Qfloor (y * 10 + (1 # 2)))%Z).
  { apply Qfloor_resp_le. lra. }
  rewrite Zle_Qle in H. qconst. lra.
Qed.

Lemma roundHalfUpTenths_tenths (k : Z) :
  roundHalfUpTenths (inject_Z k / 10) == inject_Z k / 10.
Proof.
  unfold roundHalfUpTenths.
  assert (H : Qfloor (inject_Z k / 10 * 10 + (1 # 2)) = k).
  { pose proof (Qfloor_le (inject_Z k / 10 * 10 + (1 # 2))) as Hlo.
    pose proof (Qlt_floor (inject_Z k / 10 * 10 + (1 # 2))) as Hhi.
    set (f := Qfloor (inject_Z k / 10 * 10 + (1 # 2))) in *.
    clearbody f.
    rewrite inject_Z_plus in Hhi. qconst.
    assert (H3 : inject_Z f < inject_Z (k + 1)).
    { rewrite inject_Z_plus. qconst. lra. }
    assert (H4 : inject_Z (k - 1) < inject_Z f).
    { unfold Z.sub. rewrite inject_Z_plus, inject_Z_opp. qconst. lra. }
    rewrite <- Zlt_Qlt in H3, H4. lia. }
  rewrite H. reflexivity.
Qed.

(** The rounded sum of the four terms stays between 12.4 and 100 for a
    priority between 1 and 100. *)
Lemma smartScoreSpec_range (p u : Q) (key : string) (t : Q) :
  1 <= p -> p <= 100 -> 5 <= u -> u <= 30 ->
  (124 # 10) <= smartScoreSpec p u key t /\ smartScoreSpec p u key t <= 100.
Proof.
  intros Hp1 Hp2 Hu1 Hu2.
  destruct (eisenhowerTerm_bounds key) as [He1 He2].
  destruct (effortOf_bounds (Some t)) as [Hf1 Hf2].
  unfold smartScoreSpec. split.
  - apply Qle_trans with (roundHalfUpTenths (inject_Z 124 / 10)).
    + rewrite roundHalfUpTenths_tenths. discriminate.
    + apply roundHalfUpTenths_mono.
      change (inject_Z 124) with 124. qconst. lra.
  - apply Qle_trans with (roundHalfUpTenths (inject_Z 1000 / 10)).
    + apply roundHalfUpTenths_mono.
      change (inject_Z 1000) with 1000. qconst. lra.
    + rewrite roundHalfUpTenths_tenths. discriminate.
Qed.

Lemma smartScoreSpec_mono (p p' u : Q) (key : string) (t : Q) :
  p <= p' -> smartScoreSpec p u key t <= smartScoreSpec p' u key t.
Proof.
  intros Hp. unfold smartScoreSpec. apply roundHalfUpTenths_mono.
  qconst. lra.
Qed.

(** ** The validator *)

(** Splits a hypothesis [x <- r ;; k = Ok v] on the result of [r]. *)
Ltac bind_inv H :=
  repeat match type of H with
         | bind ?r _ = Ok _ =>
             let E := fresh "E" in
             destruct r eqn:E; cbn [bind] in H; [|discriminate H]
         end.

Lemma get_object (k : string) (task : JsVal) :
  truthy task = true -> typeofObject task = true ->
  get k task = Ok (rawField k task).
Proof. destruct task; cbn; intros; try discriminate; reflexivity. Qed.


Lemma isTaskUrgent_fields (ps : Props.t) :
  isTaskUrgent (JObj ps) = Ok (urgentOf (field "eisenhowerMatrix" ps)).
Proof. reflexivity. Qed.

Lemma isTaskImportant_fields (ps : Props.t) :
  isTaskImportant (JObj ps) = Ok (importantOf (field "eisenhowerMatrix" ps)).
Proof. reflexivity. Qed.

(** The score reads four fields of the task and nothing else. *)
Lemma calculateSmartScore_fields (host : Host) (now : Z) (ps qs : Props.t) :
  field "priority" ps = field "priority" qs ->
  field "eta" ps = field "eta" qs ->
  field "eisenhowerMatrix" ps = field "eisenhowerMatrix" qs ->
  field "timeRequired" ps = field "timeRequired" qs ->
  calculateSmartScore host now (JObj ps) = calculateSmartScore host now (JObj qs).
Proof.
  intros Hp He Hq Ht. unfold calculateSmartScore, get.
  fold (field "priority" ps) (field "priority" qs)
       (field "eta" ps) (field "eta" qs)
       (field "eisenhowerMatrix" ps) (field "eisenhowerMatrix" qs)
       (field "timeRequired" ps) (field "timeRequired" qs).
  now rewrite Hp, He, Hq, Ht.
Qed.

(** What a task that the validator accepts looks like. *)
Lemma validateTask_inv (host : Host) (now : Z) (task t : JsVal) :
  validateTask host now task = t -> truthy t = true ->
  exists nameS whyS minutes prio overdue score,
    truthy task = true /\ typeofObject task = true /\
    ToString host (or (rawField "name" task) (JStr "")) = Ok nameS /\
    ToString host (or (rawField "why" task) (JStr "")) = Ok whyS /\
    parseInt host (rawField "timeRequired" task) = Ok minutes /\
    parseInt host (rawField "priority" task) = Ok prio /\
    isTaskOverdue host now
      (JObj (sourceFields now task nameS whyS minutes prio)) = Ok overdue /\
    calculateSmartScore host now
      (JObj (sourceFields now task nameS whyS minutes prio)) = Ok score /\
    t = JObj (sourceFields now task nameS whyS minutes prio
              ++ derivedFields overdue
                   (urgentOf (or (rawField "eisenhowerMatrix" task) (JStr "Q2")))
                   (importantOf (or (rawField "eisenhowerMatrix" task) (JStr "Q2")))
                   score).
Proof.
  intros Hv Ht. unfold validateTask in Hv.
  destruct (validateTaskBody host now task) as [t0|e] eqn:Hb;
    [|subst t; discriminate Ht].
  subst t0. unfold validateTaskBody in Hb.
  destruct (truthy task) eqn:Htr; cbn [negb orb] in Hb;
    [|injection Hb as <-; discriminate Ht].
  destruct (typeofObject task) eqn:Hobj; cbn [negb] in Hb;
    [|injection Hb as <-; discriminate Ht].
  rewrite !get_object in Hb by assumption. cbn [bind] in Hb.
  bind_inv Hb.
  match type of E3 with
  | isTaskOverdue _ _ (JObj ?l) = _ =>
      change l with (sourceFields now task a a0 a1 a2) in *
  end.
  cbn [isTaskUrgent isTaskImportant get bind Props.set Props.lookup sourceFields
       String.eqb Ascii.eqb Bool.eqb] in E4, E5.
  injection E4 as <-. injection E5 as <-.
  exists a, a0, a1, a2, a3, a6.
  do 7 (split; [reflexivity || assumption|]).
  split.
  { rewrite <- E6. apply calculateSmartScore_fields; reflexivity. }
  injection Hb as <-. reflexivity.
Qed.

(** The converse: the validator accepts an object whose conversions and
    derived fields evaluate. *)
Lemma validateTask_intro (host : Host) (now : Z) (task : JsVal)
      (nameS whyS : string) (minutes prio : option Z) (overdue : bool)
      (score : JsVal) :
  truthy task = true -> typeofObject task = true ->
  ToString host (or (rawField "name" task) (JStr "")) = Ok nameS ->
  ToString host (or (rawField "why" task) (JStr "")) = Ok whyS ->
  parseInt host (rawField "timeRequired" task) = Ok minutes ->
  parseInt host (rawField "priority" task) = Ok prio ->
  isTaskOverdue host now
    (JObj (sourceFields now task nameS whyS minutes prio)) = Ok overdue ->
  calculateSmartScore host now
    (JObj (sourceFields now task nameS whyS minutes prio)) = Ok score ->
  validateTask host now task =
  JObj (sourceFields now task nameS whyS minutes prio
        ++ derivedFields overdue
             (urgentOf (or (rawField "eisenhowerMatrix" task) (JStr "Q2")))
             (importantOf (or (rawField "eisenhowerMatrix" task) (JStr "Q2")))
             score).
Proof.
  intros Htr Hobj Hn Hw Hm Hp Ho Hs.
  unfold validateTask, validateTaskBody.
  rewrite Htr, Hobj. cbn [negb orb].
  rewrite !get_object by assumption. cbn [bind].
  rewrite Hn, Hw, Hm, Hp. cbn [bind].
  change (isTaskOverdue host now (JObj ?l))
    with (isTaskOverdue host now (JObj (sourceFields now task nameS whyS minutes prio))).
  fold (sourceFields now task nameS whyS minutes prio).
  rewrite Ho. cbn [bind].
  assert (Hs' :
    calculateSmartScore host now
      (JObj (Props.set "important"
               (JBool (importantOf (or (rawField "eisenhowerMatrix" task) (JStr "Q2"))))
            (Props.set "urgent"
               (JBool (urgentOf (or (rawField "eisenhowerMatrix" task) (JStr "Q2"))))
            (Props.set "overdue" (JBool overdue)
               (sourceFields now task nameS whyS minutes prio))))) = Ok score).
  { rewrite <- Hs. apply calculateSmartScore_fields; reflexivity. }
  cbn [isTaskUrgent isTaskImportant get bind Props.set Props.lookup sourceFields
       String.eqb Ascii.eqb Bool.eqb] in *.
  unfold urgentOf, importantOf in *.
  rewrite Hs'. reflexivity.
Qed.







(** ** Property lists *)

Lemma lookup_set_same (k : string) (v : JsVal) (ps : Props.t) :
  Props.lookup k (Props.set k v ps) = Some v.
Proof.
  induction ps as [|[k' v'] ps IH]; cbn.
  - now rewrite String.eqb_refl.
  - destruct (String.eqb k k') eqn:E; cbn.
    + now rewrite String.eqb_refl.
    + now rewrite E.
Qed.

Lemma lookup_set_other (k k' : string) (v : JsVal) (ps : Props.t) :
  k <> k' -> Props.lookup k (Props.set k' v ps) = Props.lookup k ps.
Proof.
  intros Hne. induction ps as [|[k0 v0] ps IH]; cbn.
  - apply String.eqb_neq in Hne. now rewrite Hne.
  - destruct (String.eqb k' k0) eqn:E; cbn.
    + apply String.eqb_eq in E. subst k0.
      apply String.eqb_neq in Hne. now rewrite Hne.
    + now rewrite IH.
Qed.

Lemma field_set_same (k : string) (v : JsVal) (ps : Props.t) :
  field k (Props.set k v ps) = v.
Proof. unfold field. now rewrite lookup_set_same. Qed.

Lemma field_set_other (k k' : string) (v : JsVal) (ps : Props.t) :
  k <> k' -> field k (Props.set k' v ps) = field k ps.
Proof. intros H. unfold field. now rewrite lookup_set_other. Qed.


(** ** The storage *)

Lemma getAllData_decodes (host : Host) (depth : nat) (now : Z)
      (st : LocalStorage) (data : JsVal) :
  readable st = true -> mainItem st = Some (Json data) ->
  getAllData host depth now st = (Ok data, st).
Proof.
  intros Hr Hm. unfold getAllData.
  destruct depth; cbn [getAllDataWith];
    unfold tryCatch, mbind, getItem, lift; rewrite Hr, Hm; reflexivity.
Qed.


(** [saveAllData] on a storage that can be read and written: the main
    item moves to the backup and the stamped data takes its place. *)
Lemma saveAllData_writes (now : Z) (st : LocalStorage) (ps : Props.t) :
  readable st = true -> writable st = true ->
  saveAllData now (JObj ps) st =
  (Ok true,
   mkStorage (Some (Json (JObj (Props.set "lastModified" (isoNow now) ps))))
             (match mainItem st with
              | Some item => Some item
              | None => backupItem st
              end)
             true true).
Proof.
  destruct st as [m b r w]. cbn [readable writable mainItem backupItem].
  intros -> ->. destruct m; reflexivity.
Qed.


(** ** Conversions that return *)

Lemma isOk_bind {A B} (r : Result A) (k : A -> Result B) :
  (forall a, isOk (k a) = true) -> isOk (bind r k) = isOk r.
Proof. intros H. destruct r; cbn; [apply H|reflexivity]. Qed.

Lemma isOk_true {A} (r : Result A) : isOk r = true -> exists a, r = Ok a.
Proof. destruct r; [eauto|discriminate]. Qed.

Lemma falsy_converts (host : Host) (v : JsVal) :
  truthy v = false -> converts host v.
Proof. unfold converts. destruct v as [| |[]| | | | |]; cbn; congruence. Qed.

Lemma converts_or (host : Host) (a b : JsVal) :
  converts host a -> converts host b -> converts host (or a b).
Proof. unfold or. now destruct (truthy a). Qed.

Lemma converts_string (host : Host) (s : string) : converts host (JStr s).
Proof. reflexivity. Qed.

Lemma converts_null (host : Host) : converts host JNull.
Proof. reflexivity. Qed.

Lemma parseInt_returns (host : Host) (v : JsVal) :
  converts host v -> isOk (parseInt host v) = true.
Proof.
  unfold converts, parseInt. destruct v; try reflexivity;
    intros H; rewrite isOk_bind; auto.
Qed.

Lemma newDate_returns (host : Host) (v : JsVal) :
  converts host v <-> isOk (newDate host v) = true.
Proof.
  unfold converts, newDate.
  destruct v as [| |[]| | | | |]; try (cbn; tauto);
    rewrite isOk_bind by reflexivity; tauto.
Qed.

Lemma overdueOf_returns (host : Host) (now : Z) (eta completed : JsVal) :
  converts host eta -> isOk (overdueOf host now eta completed) = true.
Proof.
  intros H. unfold overdueOf.
  destruct (negb (truthy eta) || truthy completed); [reflexivity|].
  rewrite isOk_bind; [now apply newDate_returns|reflexivity].
Qed.

Lemma urgencyScore_returns (host : Host) (now : Z) (eta : JsVal) :
  converts host eta <-> isOk (urgencyScore host now eta) = true.
Proof.
  unfold urgencyScore. destruct (truthy eta) eqn:E.
  - rewrite isOk_bind; [apply newDate_returns|reflexivity].
  - split; [reflexivity|intros _; now apply falsy_converts].
Qed.

(** The score of a task with numeric priority and duration returns as
    soon as its eta and its quadrant convert. *)
Lemma calculateSmartScore_returns (host : Host) (now : Z) (ps : Props.t)
      (p t : Q) :
  field "priority" ps = JNum p -> field "timeRequired" ps = JNum t ->
  converts host (field "eta" ps) ->
  converts host (field "eisenhowerMatrix" ps) ->
  isOk (calculateSmartScore host now (JObj ps)) = true.
Proof.
  intros Hp Ht He Hq. unfold calculateSmartScore, get.
  fold (field "priority" ps) (field "eta" ps)
       (field "eisenhowerMatrix" ps) (field "timeRequired" ps).
  rewrite Hp, Ht. cbn [bind ToNumber].
  apply urgencyScore_returns with (now := now) in He.
  destruct (isOk_true _ He) as [u ->]. cbn [bind].
  destruct (isOk_true _ Hq) as [key ->]. cbn [bind].
  destruct (member key); reflexivity.
Qed.

(** Conversely, a score that returned converted the eta and the
    quadrant. *)
Lemma calculateSmartScore_converted (host : Host) (now : Z) (ps : Props.t)
      (score : JsVal) :
  calculateSmartScore host now (JObj ps) = Ok score ->
  converts host (field "eta" ps) /\
  converts host (field "eisenhowerMatrix" ps).
Proof.
  unfold calculateSmartScore, get.
  fold (field "priority" ps) (field "eta" ps)
       (field "eisenhowerMatrix" ps) (field "timeRequired" ps).
  cbn [bind]. intros H. bind_inv H. split.
  - apply (urgencyScore_returns host now). now rewrite E0.
  - unfold converts. now rewrite E1.
Qed.

(** The validator accepts every object whose converted fields convert. *)
Lemma validateTask_accepts (host : Host) (now : Z) (task : JsVal) :
  truthy task = true -> typeofObject task = true ->
  (forall k, In k convertedFields -> converts host (rawField k task)) ->
  truthy (validateTask host now task) = true.
Proof.
  intros Htr Hobj Hc.
  assert (Hname : converts host (or (rawField "name" task) (JStr ""))).
  { apply converts_or; [apply Hc; cbn; tauto|apply converts_string]. }
  assert (Hwhy : converts host (or (rawField "why" task) (JStr ""))).
  { apply converts_or; [apply Hc; cbn; tauto|apply converts_string]. }
  destruct (isOk_true _ Hname) as [nameS En].
  destruct (isOk_true _ Hwhy) as [whyS Ew].
  destruct (isOk_true _ (parseInt_returns host (rawField "timeRequired" task)
                           (Hc "timeRequired" ltac:(cbn; tauto)))) as [minutes Em].
  destruct (isOk_true _ (parseInt_returns host (rawField "priority" task)
                           (Hc "priority" ltac:(cbn; tauto)))) as [prio Ep].
  assert (Heta : converts host (or (rawField "eta" task) JNull)).
  { apply converts_or; [apply Hc; cbn; tauto|apply converts_null]. }
  assert (Hq : converts host (or (rawField "eisenhowerMatrix" task) (JStr "Q2"))).
  { apply converts_or; [apply Hc; cbn; tauto|apply converts_string]. }
  destruct (isOk_true _ (overdueOf_returns host now _
              (JBool (truthy (rawField "completed" task))) Heta))
    as [overdue Eo].
  destruct (isOk_true _
              (calculateSmartScore_returns host now
                 (sourceFields now task nameS whyS minutes prio) _ _
                 eq_refl eq_refl Heta Hq)) as [score Es].
  rewrite (validateTask_intro host now task nameS whyS minutes prio overdue score);
    auto.
Qed.

(** The converted fields of an accepted task convert. *)
Lemma accepted_converts (host : Host) (t : JsVal) :
  Accepted host t ->
  forall k, In k convertedFields -> converts host (rawField k t).
Proof.
  intros (now0 & raw & _ & Hv & Ht) k Hk.
  destruct (validateTask_inv host now0 raw t Hv Ht)
    as (nameS & whyS & minutes & prio & overdue & score
        & _ & _ & _ & _ & _ & _ & _ & Hs & ->).
  apply calculateSmartScore_converted in Hs. destruct Hs as [He Hq].
  cbn in Hk.
  destruct Hk as [<-|[<-|[<-|[<-|[<-|[<-|[]]]]]]]; try reflexivity; assumption.
Qed.

(** ** Stored tasks *)

Lemma accepted_object (host : Host) (t : JsVal) :
  Accepted host t -> exists ps, t = JObj ps.
Proof.
  intros (now0 & raw & _ & Hv & Ht).
  destruct (validateTask_inv host now0 raw t Hv Ht)
    as (? & ? & ? & ? & ? & ? & _ & _ & _ & _ & _ & _ & _ & _ & ->).
  eauto.
Qed.

Lemma truthy_JInt (z : Z) : z <> 0%Z -> truthy (JInt z) = true.
Proof.
  intros Hz. cbn. unfold Qeq_bool. cbn. rewrite Z.mul_1_r.
  destruct z; [congruence|reflexivity..].
Qed.

Lemma truthy_or (a b : JsVal) : truthy b = true -> truthy (or a b) = true.
Proof. unfold or. intros Hb. now destruct (truthy a) eqn:E. Qed.

Lemma accepted_id_truthy (host : Host) (t : JsVal) :
  Accepted host t -> truthy (rawField "id" t) = true.
Proof.
  intros (now0 & raw & Hpos & Hv & Ht).
  destruct (validateTask_inv host now0 raw t Hv Ht)
    as (? & ? & ? & ? & ? & ? & _ & _ & _ & _ & _ & _ & _ & _ & ->).
  cbn [rawField field Props.lookup app sourceFields String.eqb Ascii.eqb
       Bool.eqb].
  apply truthy_or, truthy_JInt. lia.
Qed.


Lemma findIndexM_pure {A} (f : A -> Result bool) (p : A -> bool)
      (xs : list A) :
  Forall (fun x => f x = Ok (p x)) xs ->
  findIndexM f xs = Ok (findIndex p xs).
Proof.
  induction 1 as [|x rest Hx _ IH]; cbn; [reflexivity|].
  rewrite Hx. cbn. destruct (p x); [reflexivity|]. now rewrite IH.
Qed.

Lemma findIndex_some {A} (p : A -> bool) (xs : list A) (i : nat) (d : A) :
  findIndex p xs = Some i ->
  (i < List.length xs)%nat /\ p (nth i xs d) = true /\
  forall j, (j < i)%nat -> p (nth j xs d) = false.
Proof.
  revert i. induction xs as [|x rest IH]; intros i; cbn; [discriminate|].
  destruct (p x) eqn:Hx.
  - intros [= <-]. repeat split; [lia|assumption|lia].
  - destruct (findIndex p rest) as [k|]; [|discriminate].
    intros [= <-]. destruct (IH k eq_refl) as (Hlt & Hp & Hbefore).
    repeat split; [lia|assumption|].
    intros [|j] Hj; [assumption|]. apply Hbefore. lia.
Qed.



(** ** [updateTask] *)






Lemma oneTask_collection : Collection plainHost oneTaskData oneTaskList.
Proof.
  eexists. split; [reflexivity|]. split; [reflexivity|].
  constructor; [|constructor].
  exists 1000%Z, (nth 0 oneTaskList JUndefined).
  split; [reflexivity|]. split; reflexivity.
Defined.




(** C3 -- a validated task whose quadrant names a member that the score
    table inherits (here [constructor]) has priority 50 and 60 minutes, yet
    its [smartScore] is [NaN], which lies in no interval. *)
Theorem smartScore_NaN_for_inherited_quadrant (host : Host) (now : Z) :
  truthy (validateTask host now inheritedQuadrantTask) = true /\
  rawField "priority" (validateTask host now inheritedQuadrantTask) = JInt 50 /\
  rawField "timeRequired" (validateTask host now inheritedQuadrantTask)
  = JInt 60 /\
  rawField "smartScore" (validateTask host now inheritedQuadrantTask) = JNaN.
Proof. repeat split; reflexivity. Qed.

(** C4 -- on the same task the four terms of the specification sum to
    48 (20 for the priority, 5 for the absent eta, 15 for the unrecognized
    quadrant, 8 for the hour), and the score the code returns is [NaN]. *)
Theorem smartScore_not_the_rounded_sum (host : Host) (now : Z) :
  smartScoreSpec 50 5 "constructor" 60 == 48 /\
  urgencyScore host now JNull = Ok 5 /\
  calculateSmartScore host now (validateTask host now inheritedQuadrantTask)
  = Ok JNaN.
Proof. repeat split; reflexivity. Qed.

(** Away from the inherited members the score is the rounded sum of the
    four terms. *)
Lemma calculateSmartScore_rounded_sum (host : Host) (now : Z) (ps : Props.t)
      (p t u : Q) (key : string) :
  field "priority" ps = JNum p -> field "timeRequired" ps = JNum t ->
  urgencyScore host now (field "eta" ps) = Ok u ->
  ToString host (field "eisenhowerMatrix" ps) = Ok key ->
  inherited key = false ->
  calculateSmartScore host now (JObj ps) = Ok (JNum (smartScoreSpec p u key t)).
Proof.
  intros Hp Ht Hu Hk Hinh. unfold calculateSmartScore, get.
  fold (field "priority" ps) (field "eta" ps)
       (field "eisenhowerMatrix" ps) (field "timeRequired" ps).
  rewrite Hp. cbn [bind ToNumber]. rewrite Hu. cbn [bind].
  rewrite Hk. cbn [bind]. rewrite Ht. cbn [bind ToNumber numPlus].
  destruct (member_eisenhowerTerm key Hinh) as [->|[-> H15]];
    [|unfold smartScoreSpec; rewrite H15]; reflexivity.
Qed.

Lemma urgencyScore_bounds (host : Host) (now : Z) (eta : JsVal) (u : Q) :
  urgencyScore host now eta = Ok u -> 5 <= u /\ u <= 30.
Proof.
  unfold urgencyScore. destruct (truthy eta).
  - destruct (newDate host eta); cbn; [|discriminate].
    intros [= <-]. apply urgencyOfDays_bounds.
  - intros [= <-]. split; discriminate.
Qed.

(** Away from the inherited members, the score of an accepted task lies
    between 12.4 and 100, hence in the interval from 7 to 100. *)
Lemma validated_smartScore_range (host : Host) (now : Z) (raw t : JsVal)
      (key : string) :
  validateTask host now raw = t -> truthy t = true ->
  ToString host (rawField "eisenhowerMatrix" t) = Ok key ->
  inherited key = false ->
  exists s, rawField "smartScore" t = JNum s /\ 7 <= s /\ s <= 100.
Proof.
  intros Hv Ht Hk Hinh.
  destruct (validateTask_inv host now raw t Hv Ht)
    as (nameS & whyS & minutes & prio & overdue & score
        & _ & _ & _ & _ & _ & _ & _ & Hs & ->).
  cbn [rawField field Props.lookup app sourceFields derivedFields
       String.eqb Ascii.eqb Bool.eqb] in Hk |- *.
  pose proof (calculateSmartScore_converted host now _ _ Hs) as [He _].
  apply (urgencyScore_returns host now) in He.
  destruct (isOk_true _ He) as [u Hu].
  erewrite calculateSmartScore_rounded_sum in Hs;
    [|reflexivity|reflexivity|exact Hu|exact Hk|exact Hinh].
  injection Hs as <-. eexists. split; [reflexivity|].
  destruct (urgencyScore_bounds host now _ u Hu) as [Hu1 Hu2].
  set (p := Z.min 100 (Z.max 1 (orDefault prio 50))).
  assert (Hp : (1 <= p <= 100)%Z) by (subst p; lia).
  destruct (smartScoreSpec_range (inject_Z p) u key
              (inject_Z (Z.max 5 (orDefault minutes 60))))
    as [Hlo Hhi]; try assumption.
  - change 1 with (inject_Z 1). rewrite <- Zle_Qle. lia.
  - change 100 with (inject_Z 100). rewrite <- Zle_Qle. lia.
  - split; [|exact Hhi].
    eapply Qle_trans; [|exact Hlo]. discriminate.
Qed.

Lemma saveAllData_true (now : Z) (st st' : LocalStorage) (ps : Props.t) :
  saveAllData now (JObj ps) st = (Ok true, st') ->
  readable st = true /\ writable st = true /\
  st' = mkStorage
          (Some (Json (JObj (Props.set "lastModified" (isoNow now) ps))))
          (match mainItem st with
           | Some item => Some item
           | None => backupItem st
           end)
          true true.
Proof.
  destruct st as [m b r w].
  destruct r, w, m as [item|], b as [[|v]|]; cbn;
    intros H; try discriminate H; injection H as <-; auto.
Qed.

(** The four fields of an accepted task that [updateTask] forces or
    reads. *)
Lemma validated_stamps (host : Host) (now : Z) (task t : JsVal) :
  validateTask host now task = t -> truthy t = true ->
  rawField "id" t = or (rawField "id" task) (JInt now) /\
  rawField "updatedAt" t = or (rawField "updatedAt" task) (isoNow now) /\
  rawField "completedAt" t = or (rawField "completedAt" task) JNull /\
  rawField "completed" t = JBool (truthy (rawField "completed" task)).
Proof.
  intros Hv Ht.
  destruct (validateTask_inv host now task t Hv Ht)
    as (? & ? & ? & ? & ? & ? & _ & _ & _ & _ & _ & _ & _ & _ & ->).
  repeat split; reflexivity.
Qed.







Lemma accepted_completed (host : Host) (t : JsVal) :
  Accepted host t ->
  rawField "completed" t = JBool (truthy (rawField "completed" t)).
Proof.
  intros (now0 & raw & _ & Hv & Ht).
  destruct (validated_stamps host now0 raw t Hv Ht) as (_ & _ & _ & ->).
  reflexivity.
Qed.

Lemma or_truthy (a b : JsVal) : truthy a = true -> or a b = a.
Proof. unfold or. now intros ->. Qed.











(** ** [reorderTasks] *)

Lemma mapM_pure {A B} (f : A -> Result B) (g : A -> B) (xs : list A) :
  Forall (fun x => f x = Ok (g x)) xs -> mapM f xs = Ok (map g xs).
Proof.
  induction 1 as [|x rest Hx _ IH]; cbn; [reflexivity|].
  now rewrite Hx, IH.
Qed.

Lemma filterM_pure {A} (f : A -> Result bool) (p : A -> bool) (xs : list A) :
  Forall (fun x => f x = Ok (p x)) xs -> filterM f xs = Ok (filter p xs).
Proof.
  induction 1 as [|x rest Hx _ IH]; cbn; [reflexivity|].
  rewrite Hx, IH. cbn. now destruct (p x).
Qed.







Lemma renumber_fields (now position : Z) (c : Props.t) :
  rawField "priority" (renumber now position (JObj c)) = JInt position /\
  rawField "updatedAt" (renumber now position (JObj c)) = isoNow now /\
  forall k, k <> "priority" -> k <> "updatedAt" ->
            rawField k (renumber now position (JObj c)) = field k c.
Proof.
  unfold renumber. cbn [rawField Props.own]. repeat split.
  - rewrite field_set_other by discriminate. apply field_set_same.
  - apply field_set_same.
  - intros k H1 H2. now rewrite !field_set_other.
Qed.


(** ** [searchTasks] *)


Lemma includes_empty (term : string) :
  term <> "" -> Str.includes "" term = false.
Proof. destruct term; [congruence|reflexivity]. Qed.










(** ** The read path *)

Lemma handleStorageError_recovers (now : Z) (st : LocalStorage) :
  handleStorageError now st = (Ok (recovered now st), st).
Proof.
  destruct st as [m b r w]. destruct r, b as [[|v]|]; reflexivity.
Qed.

(** With a storage that cannot be written, an absent main item stays
    absent however often [getAllData] calls itself. *)
Lemma getAllDataWith_unwritable (host : Host) (room : nat) (now : Z)
      (b : option Item) :
  getAllDataWith host room now (mkStorage None b true false) =
  (Ok (recovered now (mkStorage None b true false)),
   mkStorage None b true false).
Proof.
  induction room as [|room IH].
  - destruct b as [[|v]|]; reflexivity.
  - cbn [getAllDataWith]. unfold tryCatch at 1. unfold mbind at 1.
    cbn [getItem readable mainItem]. unfold mbind at 1.
    assert (Hini : initializeStorage host now (mkStorage None b true false)
                   = (Ok tt, mkStorage None b true false)).
    { destruct b as [[|v]|]; reflexivity. }
    rewrite Hini. rewrite IH. reflexivity.
Qed.

(** C9, as amended -- [getAllData] never throws.  It returns the decoded
    main item when there is one that decodes (whatever it decodes to);
    after a failure to read or to decode, the decoded backup if there is
    one that decodes and a fresh empty collection otherwise; for an
    absent main item, the collection [initializeStorage] writes.  The
    result is a usable collection whenever the items that decode hold
    one. *)
Theorem load_returns_main_backup_or_fresh
        (host : Host) (depth : nat) (now : Z) (st : LocalStorage) :
  fst (getAllData host depth now st) = Ok (loaded depth now st) /\
  (usableItem (mainItem st) = true -> usableItem (backupItem st) = true ->
   usableCollection (loaded depth now st) = true).
Proof.
  split.
  - unfold getAllData. destruct st as [m b r w].
    destruct r; [|destruct depth; reflexivity].
    destruct m as [[|v]|].
    + destruct depth, b as [[|bv]|]; reflexivity.
    + destruct depth; reflexivity.
    + destruct w.
      * destruct depth as [|[|depth]], b as [[|bv]|]; reflexivity.
      * now rewrite getAllDataWith_unwritable.
  - intros Hm Hb. unfold loaded, recovered.
    destruct st as [m b r w]. cbn [readable writable mainItem backupItem] in *.
    destruct r; [|reflexivity].
    destruct m as [[|v]|], b as [[|bv]|], w, depth;
      try reflexivity; assumption.
Qed.

(** C9, as stated, fails: with the text [null] in the main item nothing
    fails to read or to decode, [getAllData] returns [null], which is no
    collection, and [getAllTasks] throws a TypeError to its caller. *)
Lemma load_returns_null_from_null_item :
  fst (getAllData plainHost 1 1000 nullStorage) = Ok JNull /\
  usableCollection JNull = false /\
  fst (getAllTasks plainHost 1 1000 nullStorage) = Throw TypeError.
Proof. repeat split; reflexivity. Qed.

Lemma load_returns_main_backup_or_fresh_witness :
  usableCollection (loaded 1 1000 oneTaskStorage) = true.
Proof.
  exact (proj2 (load_returns_main_backup_or_fresh plainHost 1 1000
                  oneTaskStorage) eq_refl eq_refl).
Defined.

(** ** Migration *)

Lemma backfill_object (k : string) (v : JsVal) (ps : Props.t) :
  backfill k v (JObj ps) = Ok (JObj (backfilled k v ps)).
Proof.
  unfold backfill, backfilled, get. fold (field k ps). cbn [bind].
  now destruct (truthy (field k ps)).
Qed.


Lemma field_backfilled_other (k k' : string) (v : JsVal) (ps : Props.t) :
  k <> k' -> field k (backfilled k' v ps) = field k ps.
Proof.
  intros H. unfold backfilled. destruct (truthy (field k' ps)); [reflexivity|].
  now apply field_set_other.
Qed.

(** The validator rejects whatever is not an object. *)
Lemma validateTask_rejects_non_object (host : Host) (now : Z) (v : JsVal) :
  typeofObject v = false -> validateTask host now v = JNull.
Proof.
  intros H. unfold validateTask, validateTaskBody. rewrite H.
  now rewrite orb_true_r.
Qed.

Lemma isArray_arrayOf (v : JsVal) : isArray v = true -> v = JArr (arrayOf v).
Proof. destruct v; cbn; congruence. Qed.

Lemma arrayOf_not_array (v : JsVal) : isArray v = false -> arrayOf v = [].
Proof. destruct v; cbn; congruence. Qed.

Lemma migrateObject_object (host : Host) (now : Z) (ps : Props.t) (n : JsVal) :
  migratedNextId host ps = Ok n ->
  migrateObject host now (JObj ps) = Ok (JObj (migratedProps host now ps n)).
Proof.
  intros Hn. unfold migrateObject, migratedProps.
  rewrite backfill_object. cbn [bind].
  rewrite backfill_object. cbn [bind].
  rewrite backfill_object. cbn [bind].
  set (ps3 := backfilled "lastModified" (isoNow now)
                (backfilled "createdAt" (isoNow now)
                   (backfilled "version" version ps))).
  assert (Ht3 : field "tasks" ps3 = field "tasks" ps).
  { subst ps3. now rewrite !field_backfilled_other by discriminate. }
  assert (Hn3 : field "nextId" ps3 = field "nextId" ps).
  { subst ps3. now rewrite !field_backfilled_other by discriminate. }
  cbn [get bind]. fold (field "tasks" ps3). rewrite Ht3. cbv zeta.
  set (ps4 := if isArray (field "tasks" ps) then ps3
              else Props.set "tasks" (JArr []) ps3).
  assert (E4 : (if isArray (field "tasks" ps) then Ok (JObj ps3)
                else assignProp "tasks" (JArr []) (JObj ps3))
               = Ok (JObj ps4)).
  { subst ps4. now destruct (isArray (field "tasks" ps)). }
  rewrite E4. cbn [bind get].
  assert (Ht4 : field "tasks" ps4 = JArr (arrayOf (field "tasks" ps))).
  { subst ps4. destruct (isArray (field "tasks" ps)) eqn:Ea.
    - rewrite Ht3. now apply isArray_arrayOf.
    - rewrite field_set_same. now rewrite arrayOf_not_array. }
  assert (Hn4 : field "nextId" ps4 = field "nextId" ps).
  { subst ps4. destruct (isArray (field "tasks" ps)); [assumption|].
    now rewrite field_set_other by discriminate. }
  fold (field "nextId" ps4) (field "tasks" ps4). rewrite Hn4, Ht4.
  unfold migratedNextId in Hn.
  destruct (truthy (field "nextId" ps)) eqn:Etr.
  - cbn [bind get elements assignProp]. fold (field "tasks" ps4).
    rewrite Ht4. reflexivity.
  - cbn [bind elements]. bind_inv Hn. injection Hn as <-.
    cbn [bind]. rewrite E0. cbn [bind assignProp get elements].
    fold (field "tasks" (Props.set "nextId" (ofNumber (numPlus a0 1)) ps4)).
    rewrite field_set_other by discriminate.
    fold (field "tasks" ps4). rewrite Ht4. reflexivity.
Qed.




(** With no [nextId] and no task the migration starts the ids at 1. *)
Lemma migratedNextId_empty (host : Host) (ps : Props.t) :
  truthy (field "nextId" ps) = false ->
  arrayOf (field "tasks" ps) = [] ->
  migratedNextId host ps = Ok (JNum (0 + 1)).
Proof.
  intros Hn Ht. unfold migratedNextId. now rewrite Hn, Ht.
Qed.

(** ** The invariant *)



Lemma Qlt_bool_iff (a b : Q) : Qlt_bool a b = true <-> a < b.
Proof.
  split; [apply Qlt_bool_true|].
  intros H. unfold Qlt_bool. destruct (Qle_bool b a) eqn:E; [|reflexivity].
  apply Qle_bool_iff in E. exfalso. now apply (Qlt_not_le a b).
Qed.












Lemma wellFormed_initialData (now : Z) : wellFormed (initialData now) = true.
Proof. reflexivity. Qed.



(** A task with an assigned id is an object. *)
Lemma assigned_object (t : JsVal) :
  assigned (rawField "id" t) = true -> exists ps, t = JObj ps.
Proof. destruct t; cbn; try discriminate. eauto. Qed.

Lemma assigned_objects (xs : list JsVal) :
  forallb assigned (idsOf xs) = true ->
  Forall (fun t => exists ps, t = JObj ps) xs.
Proof.
  induction xs as [|x rest IH]; cbn; [constructor|].
  intros H. apply andb_prop in H. destruct H as [Hx Hrest].
  constructor; [now apply assigned_object|now apply IH].
Qed.









Lemma truthy_positive (n : Q) : 0 < n -> truthy (JNum n) = true.
Proof.
  intros H. cbn. destruct (Qeq_bool n 0) eqn:E; [|reflexivity].
  apply Qeq_bool_iff in E. rewrite E in H.
  exfalso. now apply (Qlt_irrefl 0).
Qed.













(** [Math.max(...ids, 0)] of assigned ids is a number that none of them
    exceeds. *)
Lemma MathMax0_from (host : Host) (vs : list JsVal) (acc : Q) :
  forallb assigned vs = true ->
  exists ns m,
    mapM (ToNumber host) vs = Ok ns /\
    fold_left (fun a n => match a, n with
                          | Some x, Some y => Some (Qmax x y)
                          | _, _ => None
                          end) ns (Some acc) = Some m /\
    acc <= m /\ forallb (below (m + 1)) vs = true.
Proof.
  revert acc. induction vs as [|v rest IH]; intros acc; cbn [forallb].
  - intros _. exists [], acc. repeat split; try reflexivity. apply Qle_refl.
  - intros H. apply andb_prop in H. destruct H as [Hv Hrest].
    destruct v as [| | | |q| | |]; try discriminate Hv.
    destruct (IH (Qmax acc q) Hrest) as (ns & m & Hns & Hfold & Hle & Hbelow).
    exists (Some q :: ns), m. cbn [mapM ToNumber bind]. rewrite Hns.
    cbn [bind fold_left]. repeat split; try assumption.
    + apply Qle_trans with (Qmax acc q); [apply Q.le_max_l|assumption].
    + rewrite Hbelow. rewrite andb_true_r. cbn [below].
      apply Qlt_bool_iff.
      assert (q <= m)
        by (apply Qle_trans with (Qmax acc q); [apply Q.le_max_r|assumption]).
      lra.
Qed.

Lemma MathMax0_assigned (host : Host) (vs : list JsVal) :
  forallb assigned vs = true ->
  exists m, MathMax0 host vs = Ok (Some m) /\ 0 <= m /\
            forallb (below (m + 1)) vs = true.
Proof.
  intros H. destruct (MathMax0_from host vs 0 H)
    as (ns & m & Hns & Hfold & Hle & Hbelow).
  exists m. unfold MathMax0. rewrite Hns. cbn [bind]. rewrite Hfold. auto.
Qed.



Lemma migratedProps_collection (host : Host) (now : Z) (ps : Props.t)
      (xs : list JsVal) (n : Q) :
  field "tasks" ps = JArr xs -> field "nextId" ps = JNum n -> 0 < n ->
  field "tasks" (migratedProps host now ps (JNum n))
  = JArr (filter truthy (map (validateTask host now) xs)) /\
  field "nextId" (migratedProps host now ps (JNum n)) = JNum n.
Proof.
  intros Ht Hn Hpos. unfold migratedProps.
  set (ps3 := backfilled "lastModified" (isoNow now)
                (backfilled "createdAt" (isoNow now)
                   (backfilled "version" version ps))).
  assert (H3 : forall k, k <> "lastModified" -> k <> "createdAt" ->
                         k <> "version" -> field k ps3 = field k ps).
  { intros k H1 H2 H3. subst ps3.
    now rewrite !field_backfilled_other by assumption. }
  rewrite (H3 "tasks") by discriminate. rewrite Ht. cbn [isArray arrayOf].
  rewrite (H3 "nextId") by discriminate. rewrite Hn.
  rewrite (truthy_positive n Hpos). split.
  - rewrite field_set_other by discriminate. apply field_set_same.
  - rewrite !field_set_other by discriminate.
    rewrite (H3 "nextId") by discriminate. exact Hn.
Qed.






(** * Further properties of the storage manager *)

(** ** A storage that rejects writes *)

Lemma Framed_ret {A} (a : A) : Framed (ret a).
Proof. intros st _. reflexivity. Qed.

Lemma Framed_throw {A} (e : Error) : Framed (@throw A e).
Proof. intros st _. reflexivity. Qed.

Lemma Framed_lift {A} (r : Result A) : Framed (lift r).
Proof. intros st _. reflexivity. Qed.

Lemma Framed_bind {A B} (m : M A) (k : A -> M B) :
  Framed m -> (forall a, Framed (k a)) -> Framed (mbind m k).
Proof.
  intros Hm Hk st Hw. unfold mbind. specialize (Hm st Hw).
  destruct (m st) as [[a|e] st']; cbn [snd] in Hm; subst st'.
  - now apply Hk.
  - reflexivity.
Qed.

Lemma Framed_tryCatch {A} (body : M A) (handler : Error -> M A) :
  Framed body -> (forall e, Framed (handler e)) ->
  Framed (tryCatch body handler).
Proof.
  intros Hb Hh st Hw. unfold tryCatch. specialize (Hb st Hw).
  destruct (body st) as [[a|e] st']; cbn [snd] in Hb; subst st'.
  - reflexivity.
  - now apply Hh.
Qed.

Lemma Framed_getItem (k : Key) : Framed (getItem k).
Proof. intros st _. unfold getItem. now destruct (readable st). Qed.

Lemma Framed_setItem (k : Key) (item : Item) : Framed (setItem k item).
Proof. intros st Hw. unfold setItem. now rewrite Hw. Qed.

(** Applies the rules above through the body of a method. *)
Ltac framed :=
  cbv zeta;
  repeat first
    [ apply Framed_ret | apply Framed_throw | apply Framed_lift
    | apply Framed_getItem | apply Framed_setItem
    | assumption
    | match goal with H : forall _, Framed _ |- _ => apply H end
    | apply Framed_bind; [|intros ?]
    | apply Framed_tryCatch; [|intros ?]
    | match goal with
      | |- Framed (if ?c then _ else _) => destruct c
      | |- Framed (match ?x with _ => _ end) => destruct x
      end ].

Lemma Framed_handleStorageError (now : Z) : Framed (handleStorageError now).
Proof. unfold handleStorageError. framed. Qed.

Lemma Framed_validateAndMigrate (host : Host) (now : Z) (data : JsVal) :
  Framed (validateAndMigrate host now data).
Proof. unfold validateAndMigrate. framed. Qed.

Lemma Framed_initializeStorage (host : Host) (now : Z) :
  Framed (initializeStorage host now).
Proof.
  unfold initializeStorage.
  pose proof (Framed_handleStorageError now).
  pose proof (Framed_validateAndMigrate host now). framed.
Qed.

Lemma Framed_getAllData (host : Host) (depth : nat) (now : Z) :
  Framed (getAllData host depth now).
Proof.
  unfold getAllData.
  pose proof (Framed_handleStorageError now).
  pose proof (Framed_initializeStorage host now).
  induction depth as [|room IH]; cbn [getAllDataWith]; framed.
Qed.

Lemma Framed_saveAllData (now : Z) (data : JsVal) :
  Framed (saveAllData now data).
Proof.
  unfold saveAllData. pose proof (Framed_handleStorageError now). framed.
Qed.

(** X3.  On a storage that rejects writes (a full one), no mutating
    operation changes anything: whether it returns or throws, the storage
    is the one it started from. *)
Theorem unwritable_storage_is_left_unchanged (host : Host) (depth : nat) (now : Z) (op : Op) :
  forall st, writable st = false -> run host depth now op st = st.
Proof.
  pose proof (Framed_getAllData host depth now) as Hget.
  pose proof (Framed_saveAllData now) as Hsave.
  pose proof (Framed_initializeStorage host now) as Hinit.
  destruct op; cbn [run].
  - change (Framed (addTask host depth now taskData)).
    unfold addTask. framed.
  - change (Framed (updateTask host depth now taskId patch)).
    unfold updateTask. framed.
  - change (Framed (deleteTask host depth now taskId)).
    unfold deleteTask. framed.
  - change (Framed (addComment host depth now taskId comment)).
    unfold addComment. framed.
  - change (Framed (reorderTasks host depth now orderedIds)).
    unfold reorderTasks. framed.
  - change (Framed (importData host depth now jsonData)).
    unfold importData. framed.
  - exact Hinit.
Qed.

(** ** [addTask] *)

Lemma rawField_newTaskInput (now : Z) (nextId : JsVal) (fields : Props.t)
      (k : string) :
  k <> "id" -> k <> "createdAt" -> k <> "updatedAt" -> k <> "completed" ->
  k <> "date" ->
  rawField k (newTaskInput now nextId (JObj fields)) = field k fields.
Proof.
  intros. unfold newTaskInput. cbn [rawField Props.own].
  now rewrite !field_set_other by congruence.
Qed.

(** [addTask] on a stored object whose [tasks] is an array and whose
    [nextId] is a number. *)
Lemma addTask_run (host : Host) (depth : nat) (now : Z) (st : LocalStorage)
      (ps : Props.t) (xs : list JsVal) (n : Q) (taskData : JsVal) :
  readable st = true -> mainItem st = Some (Json (JObj ps)) ->
  field "tasks" ps = JArr xs -> field "nextId" ps = JNum n ->
  addTask host depth now taskData st =
  let t := validateTask host now (newTaskInput now (JNum n) taskData) in
  if truthy t && truthy (rawField "name" t) && truthy (rawField "why" t)
  then
    match saveAllData now
            (JObj (Props.set "nextId" (JNum (n + 1))
                  (Props.set "tasks" (JArr (xs ++ [t])) ps))) st with
    | (Ok true, st') => (Ok t, st')
    | (Ok false, st') => (Throw (message "Failed to save task"), st')
    | (Throw e, st') => (Throw e, st')
    end
  else (Throw (message "Task name and why are required"), st).
Proof.
  intros Hr Hm Ht Hn.
  unfold addTask. unfold mbind at 1.
  rewrite (getAllData_decodes host depth now st (JObj ps) Hr Hm).
  unfold mbind at 1. unfold lift at 1. cbn [get].
  fold (field "nextId" ps). rewrite Hn.
  fold (newTaskInput now (JNum n) taskData).
  cbv zeta.
  set (t := validateTask host now (newTaskInput now (JNum n) taskData)).
  clearbody t.
  assert (Hget : forall k, truthy t = true -> get k t = Ok (rawField k t)).
  { intros k. destruct t; cbn; intros; reflexivity || discriminate. }
  destruct (truthy t) eqn:Htr.
  2:{ reflexivity. }
  rewrite !Hget by reflexivity.
  unfold mbind at 1. unfold lift at 1.
  unfold mbind at 1. unfold lift at 1.
  cbn [negb orb andb].
  destruct (truthy (rawField "name" t)); cbn [negb orb andb];
    [|reflexivity].
  destruct (truthy (rawField "why" t)); cbn [negb orb andb];
    [|reflexivity].
  unfold mbind at 1. unfold lift at 1. cbn [get].
  fold (field "tasks" ps). rewrite Ht.
  unfold mbind at 1. unfold lift at 1. cbn [elements].
  unfold mbind at 1. unfold lift at 1. cbn [assignProp].
  unfold mbind at 1. unfold lift at 1. cbn [ToNumber].
  unfold mbind at 1. unfold lift at 1. cbn [assignProp numPlus ofNumber].
  unfold mbind.
  destruct (saveAllData now _ st) as [[[|]|e] st']; reflexivity.
Qed.




(** X2.  A task whose name or whose why is blank once converted to a
    string and trimmed is refused with "Task name and why are required",
    and nothing is written. *)
Theorem addTask_requires_name_and_why (host : Host) (depth : nat) (now : Z)
        (st : LocalStorage) (ps : Props.t) (xs : list JsVal) (n : Q)
        (fields : Props.t) (k s : string) :
  readable st = true -> mainItem st = Some (Json (JObj ps)) ->
  field "tasks" ps = JArr xs -> field "nextId" ps = JNum n ->
  k = "name" \/ k = "why" ->
  ToString host (or (field k fields) (JStr "")) = Ok s -> Str.trim s = "" ->
  addTask host depth now (JObj fields) st =
  (Throw (message "Task name and why are required"), st).
Proof.
  intros Hr Hm Ht Hn Hk Hs Hblank.
  rewrite (addTask_run host depth now st ps xs n (JObj fields) Hr Hm Ht Hn).
  cbv zeta.
  set (raw := newTaskInput now (JNum n) (JObj fields)).
  destruct (truthy (validateTask host now raw)) eqn:Htr; [|reflexivity].
  destruct (validateTask_inv host now raw _ eq_refl Htr)
    as (nameS & whyS & ? & ? & ? & ? & _ & _ & Hname & Hwhy & _ & _ & _ & _
        & Heq).
  rewrite Heq.
  assert (Hfalsy : truthy (rawField "name" (validateTask host now raw))
                   && truthy (rawField "why" (validateTask host now raw))
                   = false).
  { rewrite Heq.
    change (truthy (JStr (Str.trim nameS)) && truthy (JStr (Str.trim whyS))
            = false).
    destruct Hk as [-> | ->].
    - subst raw. rewrite rawField_newTaskInput in Hname by discriminate.
      rewrite Hs in Hname. injection Hname as <-. now rewrite Hblank.
    - subst raw. rewrite rawField_newTaskInput in Hwhy by discriminate.
      rewrite Hs in Hwhy. injection Hwhy as <-. rewrite Hblank.
      apply andb_false_r. }
  rewrite Heq in Hfalsy. cbn [andb].
  destruct (truthy (rawField "name" _)); cbn [andb] in *;
    [now rewrite Hfalsy|reflexivity].
Qed.

Lemma addTask_requires_name_and_why_witness :
  addTask plainHost 1 2000
    (JObj [("name", JStr "  "); ("why", JStr "deadline")]) oneTaskStorage =
  (Throw (message "Task name and why are required"), oneTaskStorage).
Proof.
  apply (addTask_requires_name_and_why plainHost 1 2000 oneTaskStorage
           oneTaskProps oneTaskList 2 _ "name" "  ").
  - reflexivity.
  - reflexivity.
  - reflexivity.
  - reflexivity.
  - now left.
  - reflexivity.
  - reflexivity.
Defined.

Lemma unwritable_storage_is_left_unchanged_witness :
  run plainHost 1 2000 (OpDelete (JInt 1))
    (mkStorage (mainItem oneTaskStorage) None true false)
  = mkStorage (mainItem oneTaskStorage) None true false.
Proof.
  apply (unwritable_storage_is_left_unchanged plainHost 1 2000
           (OpDelete (JInt 1))).
  reflexivity.
Defined.

(** ** Saving on a storage that rejects writes *)

Lemma saveAllData_unwritable (now : Z) (data : JsVal) (st : LocalStorage) :
  writable st = false -> saveAllData now data st = (Ok false, st).
Proof.
  intros Hw. unfold saveAllData, tryCatch.
  assert (Hhandler : (_ <~ handleStorageError now ;; ret false) st
                     = (Ok false, st)).
  { unfold mbind. now rewrite handleStorageError_recovers. }
  unfold mbind at 1. unfold getItem.
  destruct (readable st) eqn:Hr; [|exact Hhandler].
  assert (Hset : forall k item, setItem k item st = (Throw QuotaExceeded, st)).
  { intros k item. unfold setItem. now rewrite Hw. }
  destruct (match storageKey with
            | storageKey => mainItem st
            | backupKey => backupItem st
            end) as [item|].
  - unfold mbind at 1. rewrite Hset. exact Hhandler.
  - unfold mbind at 1. unfold ret at 1.
    unfold mbind at 1. unfold lift at 1.
    destruct (assignProp "lastModified" (isoNow now) data) as [d|e];
      [|exact Hhandler].
    unfold mbind at 1. rewrite Hset. exact Hhandler.
Qed.

Lemma Fails_throw {A} (e : Error) : Fails (@throw A e).
Proof. intros st _. reflexivity. Qed.

Lemma Fails_bind_left {A B} (m : M A) (k : A -> M B) :
  Fails m -> Fails (mbind m k).
Proof.
  intros Hm st Hw. specialize (Hm st Hw). unfold mbind.
  destruct (m st) as [[a|e] st']; [discriminate Hm|reflexivity].
Qed.

Lemma Fails_bind {A B} (m : M A) (k : A -> M B) :
  Framed m -> (forall a, Fails (k a)) -> Fails (mbind m k).
Proof.
  intros Hm Hk st Hw. specialize (Hm st Hw). unfold mbind.
  destruct (m st) as [[a|e] st']; cbn [snd] in Hm; subst st'.
  - now apply Hk.
  - reflexivity.
Qed.

Lemma Fails_setItem (k : Key) (item : Item) : Fails (setItem k item).
Proof. intros st Hw. unfold setItem. now rewrite Hw. Qed.

Lemma Fails_save_then {A} (now : Z) (data : JsVal) (a : A) (e : Error) :
  Fails (saved <~ saveAllData now data ;; if saved then ret a else throw e).
Proof.
  intros st Hw. unfold mbind. now rewrite saveAllData_unwritable.
Qed.

(** Applies the rules above through the body of a method. *)
Ltac fails :=
  cbv zeta;
  repeat first
    [ apply Fails_throw | apply Fails_save_then
    | apply Fails_bind_left; apply Fails_setItem
    | apply Fails_bind;
      [first [ apply Framed_lift | apply Framed_getItem | assumption
             | match goal with H : forall _, Framed _ |- _ => apply H end ]
      |intros ?]
    | match goal with
      | |- Fails (if ?c then _ else _) => destruct c
      | |- Fails (match ?x with _ => _ end) => destruct x
      end ].

(** X4.  On a storage that rejects writes no mutating operation returns:
    adding, updating, deleting, commenting, reordering and importing all
    throw. *)
Theorem mutations_throw_on_unwritable_storage (host : Host) (depth : nat)
        (now : Z) (st : LocalStorage) :
  writable st = false ->
  (forall taskData, isOk (fst (addTask host depth now taskData st)) = false) /\
  (forall taskId updates,
     isOk (fst (updateTask host depth now taskId updates st)) = false) /\
  (forall taskId, isOk (fst (deleteTask host depth now taskId st)) = false) /\
  (forall taskId comment,
     isOk (fst (addComment host depth now taskId comment st)) = false) /\
  (forall taskIds,
     isOk (fst (reorderTasks host depth now taskIds st)) = false) /\
  (forall jsonData,
     isOk (fst (importData host depth now jsonData st)) = false).
Proof.
  intros Hw.
  pose proof (Framed_getAllData host depth now) as Hget.
  repeat split; intros.
  - revert st Hw. change (Fails (addTask host depth now taskData)).
    unfold addTask. fails.
  - revert st Hw. change (Fails (updateTask host depth now taskId updates)).
    unfold updateTask. fails.
  - revert st Hw. change (Fails (deleteTask host depth now taskId)).
    unfold deleteTask. fails.
  - revert st Hw. change (Fails (addComment host depth now taskId comment)).
    unfold addComment. fails.
  - revert st Hw. change (Fails (reorderTasks host depth now taskIds)).
    unfold reorderTasks. fails.
  - revert st Hw. change (Fails (importData host depth now jsonData)).
    unfold importData. fails.
Qed.

Lemma mutations_throw_on_unwritable_storage_witness :
  isOk (fst (addTask plainHost 1 2000 sampleTask
               (mkStorage (mainItem oneTaskStorage) None true false)))
  = false.
Proof.
  apply (mutations_throw_on_unwritable_storage plainHost 1 2000
           (mkStorage (mainItem oneTaskStorage) None true false)).
  reflexivity.
Defined.

(** ** [deleteTask] *)

Lemma hasId_isObject (taskId : JsVal) (xs : list JsVal) :
  forallb isObject xs = true ->
  Forall (fun t => hasId taskId t = Ok (idIs taskId t)) xs.
Proof.
  intros H. apply Forall_forall. intros t Hin.
  rewrite forallb_forall in H. specialize (H t Hin).
  destruct t; try discriminate H. reflexivity.
Qed.

Lemma filter_length_all {A} (p : A -> bool) (xs : list A) :
  (List.length (filter p xs) =? List.length xs)%nat = forallb p xs.
Proof.
  induction xs as [|x rest IH]; [reflexivity|].
  cbn [filter forallb]. destruct (p x); cbn [andb List.length].
  - exact IH.
  - apply Nat.eqb_neq.
    pose proof (filter_length_le p rest). lia.
Qed.

Lemma forallb_negb_existsb {A} (p : A -> bool) (xs : list A) :
  forallb (fun x => negb (p x)) xs = negb (existsb p xs).
Proof.
  induction xs as [|x rest IH]; [reflexivity|].
  cbn [forallb existsb]. rewrite IH. now destruct (p x).
Qed.

Lemma forallb_filter {A} (p q : A -> bool) (xs : list A) :
  forallb p xs = true -> forallb p (filter q xs) = true.
Proof.
  induction xs as [|x rest IH]; [reflexivity|].
  cbn [forallb filter]. intros H. apply andb_prop in H. destruct H as [Hx Hr].
  destruct (q x); cbn [forallb]; [rewrite Hx|]; now apply IH.
Qed.

Lemma existsb_filter_negb {A} (p : A -> bool) (xs : list A) :
  existsb p (filter (fun x => negb (p x)) xs) = false.
Proof.
  induction xs as [|x rest IH]; [reflexivity|].
  cbn [filter]. destruct (p x) eqn:E; cbn [negb existsb]; [exact IH|].
  now rewrite E, IH.
Qed.

(** [deleteTask] on a stored object whose [tasks] is an array of
    objects. *)
Lemma deleteTask_run (host : Host) (depth : nat) (now : Z)
      (st : LocalStorage) (ps : Props.t) (xs : list JsVal) (taskId : JsVal) :
  readable st = true -> mainItem st = Some (Json (JObj ps)) ->
  field "tasks" ps = JArr xs -> forallb isObject xs = true ->
  deleteTask host depth now taskId st =
  if existsb (idIs taskId) xs then
    match saveAllData now
            (JObj (Props.set "tasks"
                     (JArr (filter (fun t => negb (idIs taskId t)) xs)) ps))
            st with
    | (Ok true, st') => (Ok true, st')
    | (Ok false, st') =>
        (Throw (message "Failed to save after deletion"), st')
    | (Throw e, st') => (Throw e, st')
    end
  else (Throw (message "Task not found"), st).
Proof.
  intros Hr Hm Ht Hobj.
  unfold deleteTask. unfold mbind at 1.
  rewrite (getAllData_decodes host depth now st (JObj ps) Hr Hm).
  unfold mbind at 1. unfold lift at 1. cbn [get].
  fold (field "tasks" ps). rewrite Ht.
  unfold mbind at 1. unfold lift at 1. cbn [elements].
  rewrite (filterM_pure _ (fun t => negb (idIs taskId t)) xs).
  2:{ eapply Forall_impl; [|exact (hasId_isObject taskId xs Hobj)].
      intros t Hid. cbn beta. now rewrite Hid. }
  unfold mbind at 1. unfold lift at 1.
  unfold mbind at 1. unfold lift at 1. cbn [assignProp].
  rewrite filter_length_all, forallb_negb_existsb.
  destruct (existsb (idIs taskId) xs); cbn [negb]; [|reflexivity].
  unfold mbind.
  destruct (saveAllData now _ st) as [[[|]|e] st']; reflexivity.
Qed.

(** X5.  When [deleteTask] returns, the stored array is the former one
    without the entries whose id is the given one, in the former order:
    no entry with that id is left, every other entry is still there, and
    the former collection is the backup. *)
Theorem deleteTask_removes_every_match (host : Host) (depth : nat) (now : Z)
        (st st' : LocalStorage) (ps : Props.t) (xs : list JsVal)
        (taskId : JsVal) (b : bool) :
  readable st = true -> mainItem st = Some (Json (JObj ps)) ->
  field "tasks" ps = JArr xs -> forallb isObject xs = true ->
  deleteTask host depth now taskId st = (Ok b, st') ->
  let kept := filter (fun t => negb (idIs taskId t)) xs in
  b = true /\
  existsb (idIs taskId) xs = true /\
  existsb (idIs taskId) kept = false /\
  (forall t, In t xs -> idIs taskId t = false -> In t kept) /\
  st' = mkStorage
          (Some (Json (JObj (Props.set "lastModified" (isoNow now)
                            (Props.set "tasks" (JArr kept) ps)))))
          (Some (Json (JObj ps))) true true.
Proof.
  intros Hr Hm Ht Hobj Hrun kept.
  rewrite (deleteTask_run host depth now st ps xs taskId Hr Hm Ht Hobj)
    in Hrun.
  destruct (existsb (idIs taskId) xs); [|discriminate Hrun].
  fold kept in Hrun.
  destruct (saveAllData now _ st) as [[[|]|e] st1] eqn:Hsave;
    try discriminate Hrun.
  injection Hrun as <- <-.
  apply saveAllData_true in Hsave. destruct Hsave as (_ & _ & ->).
  rewrite Hm.
  repeat split.
  - apply existsb_filter_negb.
  - intros t Hin Hid. apply filter_In. split; [assumption|].
    now rewrite Hid.
Qed.

Lemma deleteTask_removes_every_match_witness :
  exists st',
    deleteTask plainHost 1 3000 (JInt 2) twoTaskStorage = (Ok true, st') /\
    mainItem st' =
      Some (Json (JObj (Props.set "lastModified" (isoNow 3000)
                         (Props.set "tasks" (JArr oneTaskList)
                            (mainProps twoTaskStorage))))).
Proof.
  exists (snd (deleteTask plainHost 1 3000 (JInt 2) twoTaskStorage)).
  split; [vm_compute; reflexivity|].
  pose proof (deleteTask_removes_every_match plainHost 1 3000 twoTaskStorage
                (snd (deleteTask plainHost 1 3000 (JInt 2) twoTaskStorage))
                (mainProps twoTaskStorage)
                (arrayOf (field "tasks" (mainProps twoTaskStorage)))
                (JInt 2) true eq_refl eq_refl eq_refl eq_refl eq_refl)
    as (_ & _ & _ & _ & Hst).
  rewrite Hst. reflexivity.
Defined.

(** X6.  Deleting an id that no stored task has throws "Task not found"
    and writes nothing. *)
Theorem deleteTask_unknown_id_throws (host : Host) (depth : nat) (now : Z)
        (st : LocalStorage) (ps : Props.t) (xs : list JsVal)
        (taskId : JsVal) :
  readable st = true -> mainItem st = Some (Json (JObj ps)) ->
  field "tasks" ps = JArr xs -> forallb isObject xs = true ->
  existsb (idIs taskId) xs = false ->
  deleteTask host depth now taskId st =
  (Throw (message "Task not found"), st).
Proof.
  intros Hr Hm Ht Hobj Hno.
  rewrite (deleteTask_run host depth now st ps xs taskId Hr Hm Ht Hobj).
  now rewrite Hno.
Qed.

Lemma deleteTask_unknown_id_throws_witness :
  deleteTask plainHost 1 3000 (JStr "1") oneTaskStorage =
  (Throw (message "Task not found"), oneTaskStorage).
Proof.
  apply (deleteTask_unknown_id_throws plainHost 1 3000 oneTaskStorage
           oneTaskProps oneTaskList (JStr "1"));
    reflexivity.
Defined.

(** X7.  A task is deleted once: after [deleteTask] returned, deleting
    the same id again throws "Task not found" and leaves the storage as
    the first deletion wrote it. *)
Theorem deleteTask_twice_throws (host : Host) (depth : nat) (now now' : Z)
        (st st' : LocalStorage) (ps : Props.t) (xs : list JsVal)
        (taskId : JsVal) (b : bool) :
  readable st = true -> mainItem st = Some (Json (JObj ps)) ->
  field "tasks" ps = JArr xs -> forallb isObject xs = true ->
  deleteTask host depth now taskId st = (Ok b, st') ->
  deleteTask host depth now' taskId st' =
  (Throw (message "Task not found"), st').
Proof.
  intros Hr Hm Ht Hobj Hrun.
  rewrite (deleteTask_run host depth now st ps xs taskId Hr Hm Ht Hobj)
    in Hrun.
  destruct (existsb (idIs taskId) xs); [|discriminate Hrun].
  destruct (saveAllData now _ st) as [[[|]|e] st1] eqn:Hsave;
    try discriminate Hrun.
  injection Hrun as <- <-.
  apply saveAllData_true in Hsave. destruct Hsave as (_ & _ & ->).
  match goal with
  | |- deleteTask _ _ _ _ ?s = _ =>
      rewrite (deleteTask_run host depth now' s _
                 (filter (fun t => negb (idIs taskId t)) xs) taskId
                 eq_refl eq_refl)
  end.
  - now rewrite existsb_filter_negb.
  - rewrite field_set_other by discriminate. apply field_set_same.
  - now apply forallb_filter.
Qed.

Lemma deleteTask_twice_throws_witness :
  deleteTask plainHost 1 4000 (JInt 2) afterDeleteStorage =
  (Throw (message "Task not found"), afterDeleteStorage).
Proof.
  apply (deleteTask_twice_throws plainHost 1 3000 4000 twoTaskStorage
           afterDeleteStorage (mainProps twoTaskStorage)
           (arrayOf (field "tasks" (mainProps twoTaskStorage)))
           (JInt 2) true);
    reflexivity.
Defined.

(** ** [addComment] *)

Lemma set_set (k : string) (v w : JsVal) (ps : Props.t) :
  Props.set k v (Props.set k w ps) = Props.set k v ps.
Proof.
  induction ps as [|[k' v'] ps IH]; cbn [Props.set].
  - now rewrite String.eqb_refl.
  - destruct (String.eqb k k') eqn:E; cbn [Props.set].
    + now rewrite String.eqb_refl.
    + now rewrite E, IH.
Qed.

Lemma withComment_object (now : Z) (commentObj : JsVal) (tp : Props.t) :
  withComment now commentObj (JObj tp) =
  Ok (JObj (commented now commentObj tp)).
Proof.
  unfold withComment, commented. cbn [get bind]. fold (field "comments" tp).
  destruct (field "comments" tp) as [| | | | | |cs|] eqn:E;
    cbn [isArray assignProp bind get arrayOf app];
    try (rewrite lookup_set_same; cbn [elements bind assignProp app];
         now rewrite set_set).
  fold (field "comments" tp). rewrite E. reflexivity.
Qed.

Lemma nth_isObject (xs : list JsVal) (i : nat) :
  forallb isObject xs = true -> (i < List.length xs)%nat ->
  exists tp, nth i xs JUndefined = JObj tp /\
             nth_error xs i = Some (JObj tp).
Proof.
  revert i. induction xs as [|x rest IH]; intros i Hobj Hi; cbn in Hi;
    [lia|].
  cbn [forallb] in Hobj. apply andb_prop in Hobj. destruct Hobj as [Hx Hrest].
  destruct i as [|j].
  - destruct x; try discriminate Hx. eexists. split; reflexivity.
  - cbn [nth nth_error]. apply IH; [assumption|lia].
Qed.

(** [addComment] on a stored object whose [tasks] is an array of
    objects. *)
Lemma addComment_run (host : Host) (depth : nat) (now : Z)
      (st : LocalStorage) (ps : Props.t) (xs : list JsVal)
      (taskId comment : JsVal) :
  readable st = true -> mainItem st = Some (Json (JObj ps)) ->
  field "tasks" ps = JArr xs -> forallb isObject xs = true ->
  addComment host depth now taskId comment st =
  match findIndex (idIs taskId) xs with
  | None => (Throw (message "Task not found"), st)
  | Some i =>
      match ToString host comment with
      | Throw e => (Throw e, st)
      | Ok text =>
          if String.eqb (Str.trim text) ""
          then (Throw (message "Comment cannot be empty"), st)
          else
            match saveAllData now
                    (JObj (Props.set "tasks"
                             (JArr (setNth i
                                      (JObj (commented now
                                               (commentObject now text)
                                               (Props.own
                                                  (nth i xs JUndefined))))
                                      xs)) ps)) st with
            | (Ok true, st') => (Ok (commentObject now text), st')
            | (Ok false, st') =>
                (Throw (message "Failed to save comment"), st')
            | (Throw e, st') => (Throw e, st')
            end
      end
  end.
Proof.
  intros Hr Hm Ht Hobj.
  unfold addComment. unfold mbind at 1.
  rewrite (getAllData_decodes host depth now st (JObj ps) Hr Hm).
  unfold mbind at 1. unfold lift at 1. cbn [get].
  fold (field "tasks" ps). rewrite Ht.
  unfold mbind at 1. unfold lift at 1. cbn [elements].
  rewrite (findIndexM_pure _ (idIs taskId) xs (hasId_isObject taskId xs Hobj)).
  unfold mbind at 1. unfold lift at 1.
  destruct (findIndex (idIs taskId) xs) as [i|] eqn:Hfind; cbv zeta;
    [|reflexivity].
  destruct (findIndex_some _ _ _ JUndefined Hfind) as (Hi & _ & _).
  destruct (nth_isObject xs i Hobj Hi) as (tp & Hnth & _).
  rewrite Hnth. cbn [truthy negb Props.own].
  unfold mbind at 1. unfold lift at 1.
  destruct (ToString host comment) as [text|e]; [|reflexivity].
  fold (commentObject now text).
  destruct (String.eqb (Str.trim text) ""); cbn [negb]; [reflexivity|].
  rewrite withComment_object.
  unfold mbind at 1. unfold lift at 1.
  unfold mbind at 1. unfold lift at 1. cbn [assignProp].
  unfold mbind.
  destruct (saveAllData now _ st) as [[[|]|e] st']; reflexivity.
Qed.

(** X8.  When [addComment] returns, the comment it returns carries the
    trimmed text, which is not empty, and the current instant as id and
    timestamp; the first stored task with the given id has it as the last
    of its comments and is stamped, its other fields and the other tasks
    are as they were, and the former collection is the backup. *)
Theorem addComment_appends_to_first_match (host : Host) (depth : nat)
        (now : Z) (st st' : LocalStorage) (ps : Props.t) (xs : list JsVal)
        (taskId comment c : JsVal) :
  readable st = true -> mainItem st = Some (Json (JObj ps)) ->
  field "tasks" ps = JArr xs -> forallb isObject xs = true ->
  addComment host depth now taskId comment st = (Ok c, st') ->
  exists i tp tp' text,
    findIndex (idIs taskId) xs = Some i /\
    nth_error xs i = Some (JObj tp) /\
    ToString host comment = Ok text /\ Str.trim text <> "" /\
    c = commentObject now text /\
    field "comments" tp' = JArr (arrayOf (field "comments" tp) ++ [c]) /\
    field "updatedAt" tp' = isoNow now /\
    (forall k, k <> "comments" -> k <> "updatedAt" ->
               field k tp' = field k tp) /\
    st' = mkStorage
            (Some (Json (JObj (Props.set "lastModified" (isoNow now)
                              (Props.set "tasks"
                                 (JArr (setNth i (JObj tp') xs)) ps)))))
            (Some (Json (JObj ps))) true true.
Proof.
  intros Hr Hm Ht Hobj Hrun.
  rewrite (addComment_run host depth now st ps xs taskId comment
             Hr Hm Ht Hobj) in Hrun.
  destruct (findIndex (idIs taskId) xs) as [i|] eqn:Hfind;
    [|discriminate Hrun].
  destruct (findIndex_some _ _ _ JUndefined Hfind) as (Hi & _ & _).
  destruct (nth_isObject xs i Hobj Hi) as (tp & Hnth & Hnth').
  rewrite Hnth in Hrun. cbn [Props.own] in Hrun.
  destruct (ToString host comment) as [text|e]; [|discriminate Hrun].
  destruct (String.eqb (Str.trim text) "") eqn:Hblank;
    [discriminate Hrun|].
  destruct (saveAllData now _ st) as [[[|]|e] st1] eqn:Hsave;
    try discriminate Hrun.
  injection Hrun as <- <-.
  apply saveAllData_true in Hsave. destruct Hsave as (_ & _ & ->).
  rewrite Hm.
  exists i, tp, (commented now (commentObject now text) tp), text.
  repeat split; try reflexivity; try assumption.
  - now apply String.eqb_neq.
  - unfold commented. rewrite field_set_other by discriminate.
    apply field_set_same.
  - apply field_set_same.
  - intros k Hk1 Hk2. unfold commented.
    now rewrite !field_set_other by congruence.
Qed.

Lemma addComment_appends_to_first_match_witness :
  exists c st',
    addComment plainHost 1 3000 (JInt 1) (JStr " started ") oneTaskStorage
    = (Ok c, st') /\
    c = commentObject 3000 " started ".
Proof.
  exists (commentObject 3000 " started "),
         (snd (addComment plainHost 1 3000 (JInt 1) (JStr " started ")
                 oneTaskStorage)).
  split; [vm_compute; reflexivity|].
  destruct (addComment_appends_to_first_match plainHost 1 3000
              oneTaskStorage
              (snd (addComment plainHost 1 3000 (JInt 1) (JStr " started ")
                      oneTaskStorage))
              oneTaskProps oneTaskList (JInt 1) (JStr " started ")
              (commentObject 3000 " started ")
              eq_refl eq_refl eq_refl eq_refl eq_refl)
    as (i & tp & tp' & text & _ & _ & _ & _ & Hc & _).
  reflexivity.
Defined.

(** X9.  A comment that is blank once converted to a string and trimmed
    is refused with "Comment cannot be empty" when the task exists, and
    nothing is written. *)
Theorem addComment_rejects_blank_comment (host : Host) (depth : nat)
        (now : Z) (st : LocalStorage) (ps : Props.t) (xs : list JsVal)
        (taskId comment : JsVal) (text : string) :
  readable st = true -> mainItem st = Some (Json (JObj ps)) ->
  field "tasks" ps = JArr xs -> forallb isObject xs = true ->
  existsb (idIs taskId) xs = true ->
  ToString host comment = Ok text -> Str.trim text = "" ->
  addComment host depth now taskId comment st =
  (Throw (message "Comment cannot be empty"), st).
Proof.
  intros Hr Hm Ht Hobj Hex Htext Hblank.
  rewrite (addComment_run host depth now st ps xs taskId comment
             Hr Hm Ht Hobj).
  destruct (findIndex (idIs taskId) xs) as [i|] eqn:Hfind.
  - now rewrite Htext, Hblank.
  - exfalso. clear - Hex Hfind.
    induction xs as [|x rest IH]; [discriminate Hex|].
    cbn [existsb findIndex] in *.
    destruct (idIs taskId x); [discriminate Hfind|].
    destruct (findIndex (idIs taskId) rest); [discriminate Hfind|].
    now apply IH.
Qed.

Lemma addComment_rejects_blank_comment_witness :
  addComment plainHost 1 3000 (JInt 1) (JStr "   ") oneTaskStorage =
  (Throw (message "Comment cannot be empty"), oneTaskStorage).
Proof.
  apply (addComment_rejects_blank_comment plainHost 1 3000 oneTaskStorage
           oneTaskProps oneTaskList (JInt 1) (JStr "   ") "   ");
    reflexivity.
Defined.

(** X10.  The task is looked up before the comment is read: for an id
    that no stored task has, [addComment] throws "Task not found"
    whatever the comment is, and writes nothing. *)
Theorem addComment_unknown_id_throws (host : Host) (depth : nat) (now : Z)
        (st : LocalStorage) (ps : Props.t) (xs : list JsVal)
        (taskId comment : JsVal) :
  readable st = true -> mainItem st = Some (Json (JObj ps)) ->
  field "tasks" ps = JArr xs -> forallb isObject xs = true ->
  existsb (idIs taskId) xs = false ->
  addComment host depth now taskId comment st =
  (Throw (message "Task not found"), st).
Proof.
  intros Hr Hm Ht Hobj Hno.
  rewrite (addComment_run host depth now st ps xs taskId comment
             Hr Hm Ht Hobj).
  destruct (findIndex (idIs taskId) xs) as [i|] eqn:Hfind; [|reflexivity].
  exfalso.
  destruct (findIndex_some _ _ _ JUndefined Hfind) as (Hi & Hp & _).
  assert (Hin : In (nth i xs JUndefined) xs) by now apply nth_In.
  assert (Hex : existsb (idIs taskId) xs = true).
  { apply existsb_exists. eauto. }
  congruence.
Qed.

Lemma addComment_unknown_id_throws_witness :
  addComment plainHost 1 3000 (JInt 9) (JStr "") oneTaskStorage =
  (Throw (message "Task not found"), oneTaskStorage).
Proof.
  apply (addComment_unknown_id_throws plainHost 1 3000 oneTaskStorage
           oneTaskProps oneTaskList (JInt 9) (JStr ""));
    reflexivity.
Defined.

(** ** [importData] and [exportData] *)

(** X11.  [importData] checks the text before it touches the storage: a
    text that does not decode throws the decoder's error, [null] throws
    a TypeError on [importedData.tasks], and any other value whose
    [tasks] is not an array throws "Invalid data format"; in each case
    the storage (backup included) is left as it was. *)
Theorem importData_validates_before_writing (host : Host) (depth : nat)
        (now : Z) (jsonData : Item) (st : LocalStorage) :
  match jsonData with
  | Json v => usableCollection v
  | Garbled => false
  end = false ->
  importData host depth now jsonData st =
  (Throw match jsonData with
         | Garbled => SyntaxError
         | Json JNull | Json JUndefined => TypeError
         | Json _ => message "Invalid data format"
         end, st).
Proof.
  intros Hbad. unfold importData. unfold mbind at 1. unfold lift at 1.
  destruct jsonData as [|v]; cbn [JSON_parse]; [reflexivity|].
  unfold mbind at 1. unfold lift at 1.
  destruct v as [| | | | | | |ips]; cbn [get]; try reflexivity.
  cbn [usableCollection] in Hbad. unfold field in Hbad.
  rewrite Hbad. cbn [negb]. now rewrite orb_true_r.
Qed.

Lemma importData_validates_before_writing_witness :
  importData plainHost 1 3000 (Json (JObj [("tasks", JStr "none")]))
    oneTaskStorage
  = (Throw (message "Invalid data format"), oneTaskStorage).
Proof.
  apply (importData_validates_before_writing plainHost 1 3000
           (Json (JObj [("tasks", JStr "none")])) oneTaskStorage).
  reflexivity.
Defined.

(** [importData] of a usable text whose accepted tasks carry assigned
    ids, on a healthy storage that holds a collection. *)
Lemma importData_run (host : Host) (depth : nat) (now : Z)
      (st : LocalStorage) (data : JsVal) (ips : Props.t) (ys : list JsVal) :
  healthy st -> mainItem st = Some (Json data) ->
  field "tasks" ips = JArr ys ->
  let processed := filter truthy (map (validateTask host now) ys) in
  forallb assigned (idsOf processed) = true ->
  exists m,
    MathMax0 host (idsOf processed) = Ok (Some m) /\
    importData host depth now (Json (JObj ips)) st =
    (Ok (JObj [("success", JBool true);
               ("imported", JInt (Z.of_nat (List.length processed)));
               ("message",
                 JStr ("Successfully imported "
                       ++ Str.ofZ (Z.of_nat (List.length processed))
                       ++ " tasks"))]),
     mkStorage
       (Some (Json (JObj [("version", version);
                          ("createdAt",
                            or (field "createdAt" ips) (isoNow now));
                          ("lastModified", isoNow now);
                          ("tasks", JArr processed);
                          ("nextId", JNum (m + 1))])))
       (Some (Json data)) true true).
Proof.
  intros [Hr Hw] Hm Ht processed Ha.
  destruct (MathMax0_assigned host (idsOf processed) Ha)
    as (m & Hmax & _ & _).
  exists m. split; [exact Hmax|].
  unfold importData. unfold mbind at 1. unfold lift at 1. cbn [JSON_parse].
  unfold mbind at 1. unfold lift at 1. cbn [get].
  fold (field "tasks" ips). rewrite Ht. cbn [truthy isArray negb orb].
  unfold mbind at 1.
  rewrite (getAllData_decodes host depth now st data Hr Hm).
  unfold mbind at 1. unfold setItem at 1. rewrite Hw.
  unfold mbind at 1. unfold lift at 1. cbn [elements].
  fold processed.
  unfold mbind at 1. unfold lift at 1. fold (field "createdAt" ips).
  unfold mbind at 1. unfold lift at 1.
  rewrite (mapM_pure _ (rawField "id")).
  2:{ eapply Forall_impl; [|exact (assigned_objects processed Ha)].
      intros t [c ->]. reflexivity. }
  fold (idsOf processed).
  unfold mbind at 1. unfold lift at 1. rewrite Hmax.
  cbv zeta. cbn [numPlus ofNumber].
  unfold mbind.
  rewrite saveAllData_writes by (cbn; assumption || reflexivity).
  cbn [mainItem backupItem]. rewrite Hm. unfold JSON_stringify.
  reflexivity.
Qed.





(** [exportData] on a storage that holds an object: the text is the
    collection with the two export stamps, and nothing is written. *)
Lemma exportData_run (host : Host) (depth : nat) (now : Z)
      (st : LocalStorage) (ps : Props.t) :
  readable st = true -> mainItem st = Some (Json (JObj ps)) ->
  exportData host depth now st =
  (Ok (Json (JObj (Props.set "exportVersion" version
                    (Props.set "exportedAt" (isoNow now) ps)))), st).
Proof.
  intros Hr Hm. unfold exportData, mbind.
  now rewrite (getAllData_decodes host depth now st (JObj ps) Hr Hm).
Qed.

Lemma accepted_revalidates (host : Host) (now : Z) (t : JsVal) :
  Accepted host t ->
  truthy (validateTask host now t) = true /\
  rawField "id" (validateTask host now t) = rawField "id" t.
Proof.
  intros Hacc.
  assert (Htr : truthy (validateTask host now t) = true).
  { destruct (accepted_object host t Hacc) as [c ->].
    apply validateTask_accepts; try reflexivity.
    now apply accepted_converts. }
  split; [exact Htr|].
  destruct (validated_stamps host now t _ eq_refl Htr) as (-> & _).
  apply or_truthy. now apply (accepted_id_truthy host).
Qed.

Lemma accepted_all_revalidate (host : Host) (now : Z) (xs : list JsVal) :
  Forall (Accepted host) xs ->
  filter truthy (map (validateTask host now) xs)
  = map (validateTask host now) xs /\
  idsOf (map (validateTask host now) xs) = idsOf xs.
Proof.
  induction 1 as [|t rest Ht _ [IHf IHi]]; [split; reflexivity|].
  destruct (accepted_revalidates host now t Ht) as [Htr Hid].
  cbn [map filter]. rewrite Htr, IHf. split; [reflexivity|].
  unfold idsOf in *. cbn [map]. now rewrite Hid, IHi.
Qed.

(** X13.  Export then import is a round trip for the tasks: on a
    healthy storage whose tasks are accepted ones with numeric ids, the
    text that [exportData] returns is imported in full, every task is
    kept (revalidated at the time of the import) under the id it had,
    and the export itself writes nothing. *)
Theorem export_then_import_keeps_tasks (host : Host) (depth : nat)
        (now now' : Z) (st : LocalStorage) (ps : Props.t)
        (xs : list JsVal) :
  healthy st -> mainItem st = Some (Json (JObj ps)) ->
  field "tasks" ps = JArr xs -> Forall (Accepted host) xs ->
  forallb assigned (idsOf xs) = true ->
  exists text result st',
    exportData host depth now st = (Ok text, st) /\
    importData host depth now' text st = (Ok result, st') /\
    rawField "imported" result = JInt (Z.of_nat (List.length xs)) /\
    rawField "tasks" (mainData st')
    = JArr (map (validateTask host now') xs) /\
    idsOf (map (validateTask host now') xs) = idsOf xs.
Proof.
  intros Hh Hm Ht Hacc Ha.
  destruct (accepted_all_revalidate host now' xs Hacc) as [Hall Hids].
  pose proof Hh as [Hr Hw].
  set (eps := Props.set "exportVersion" version
                (Props.set "exportedAt" (isoNow now) ps)).
  assert (Het : field "tasks" eps = JArr xs).
  { subst eps. now rewrite !field_set_other by discriminate. }
  destruct (importData_run host depth now' st (JObj ps) eps xs Hh Hm Het)
    as (m & _ & Hrun).
  { cbv zeta. now rewrite Hall, Hids. }
  rewrite Hall in Hrun.
  do 3 eexists.
  split; [exact (exportData_run host depth now st ps Hr Hm)|].
  split; [exact Hrun|].
  rewrite length_map. repeat split. exact Hids.
Qed.

Lemma export_then_import_keeps_tasks_witness :
  exists text result st',
    exportData plainHost 1 3000 oneTaskStorage = (Ok text, oneTaskStorage) /\
    importData plainHost 1 4000 text oneTaskStorage = (Ok result, st') /\
    rawField "imported" result = JInt 1.
Proof.
  destruct (export_then_import_keeps_tasks plainHost 1 3000 4000
              oneTaskStorage oneTaskProps oneTaskList
              (conj eq_refl eq_refl) eq_refl eq_refl
              (match oneTask_collection with
               | ex_intro _ _ (conj _ (conj _ H)) => H
               end)
              eq_refl)
    as (text & result & st' & Hexp & Himp & Hcount & _).
  exists text, result, st'. repeat split; assumption.
Defined.

(** ** [clearAllData] and [restoreFromBackup] *)

(** X14.  On a healthy storage that holds a collection, [clearAllData]
    returns true, the main item becomes the empty collection stamped
    with the current instant, and the collection it cleared is the
    backup. *)
Theorem clearAllData_backs_up_and_resets (host : Host) (depth : nat)
        (now : Z) (st : LocalStorage) (data : JsVal) :
  healthy st -> mainItem st = Some (Json data) ->
  clearAllData host depth now st =
  (Ok true,
   mkStorage (Some (Json (initialData now))) (Some (Json data)) true true).
Proof.
  intros [Hr Hw] Hm. unfold clearAllData, tryCatch.
  unfold mbind at 1.
  rewrite (getAllData_decodes host depth now st data Hr Hm).
  unfold mbind at 1. unfold setItem at 1. rewrite Hw.
  unfold mbind at 1. unfold removeItem at 1. cbn [readable]. rewrite Hr.
  unfold mbind at 1. unfold initializeStorage, tryCatch.
  unfold mbind at 1. unfold getItem at 1. cbn [readable mainItem].
  unfold setItem. cbn [writable backupItem readable].
  reflexivity.
Qed.

Lemma clearAllData_backs_up_and_resets_witness :
  clearAllData plainHost 1 3000 oneTaskStorage =
  (Ok true,
   mkStorage (Some (Json (initialData 3000))) (Some (Json oneTaskData))
             true true).
Proof.
  apply (clearAllData_backs_up_and_resets plainHost 1 3000 oneTaskStorage
           oneTaskData (conj eq_refl eq_refl) eq_refl).
Defined.

(** X15.  On a storage that rejects writes, [clearAllData] answers false
    and clears nothing: the backup cannot be written, and the main item
    is removed only after the backup was. *)
Theorem clearAllData_keeps_data_it_cannot_back_up (host : Host)
        (depth : nat) (now : Z) (st : LocalStorage) :
  writable st = false ->
  clearAllData host depth now st = (Ok false, st).
Proof.
  intros Hw. unfold clearAllData, tryCatch.
  unfold mbind at 1.
  pose proof (Framed_getAllData host depth now st Hw) as Hst.
  destruct (getAllData host depth now st) as [[data|e] st1];
    cbn [snd] in Hst; subst st1; [|reflexivity].
  unfold mbind at 1. unfold setItem at 1. now rewrite Hw.
Qed.

Lemma clearAllData_keeps_data_it_cannot_back_up_witness :
  clearAllData plainHost 1 3000
    (mkStorage (mainItem oneTaskStorage) None true false)
  = (Ok false, mkStorage (mainItem oneTaskStorage) None true false).
Proof.
  apply (clearAllData_keeps_data_it_cannot_back_up plainHost 1 3000
           (mkStorage (mainItem oneTaskStorage) None true false)).
  reflexivity.
Defined.

(** X16.  Without a backup item, [restoreFromBackup] throws "No backup
    found" and leaves the storage as it was. *)
Theorem restoreFromBackup_needs_a_backup (host : Host) (now : Z)
        (st : LocalStorage) :
  readable st = true -> backupItem st = None ->
  restoreFromBackup host now st = (Throw (message "No backup found"), st).
Proof.
  intros Hr Hb. unfold restoreFromBackup. unfold mbind at 1.
  unfold getItem. now rewrite Hr, Hb.
Qed.

Lemma restoreFromBackup_needs_a_backup_witness :
  restoreFromBackup plainHost 3000 initialStorage =
  (Throw (message "No backup found"), initialStorage).
Proof.
  apply (restoreFromBackup_needs_a_backup plainHost 3000 initialStorage);
    reflexivity.
Defined.

(** [restoreFromBackup] on a healthy storage whose backup is an object
    with a numeric [nextId] other than 0. *)
Lemma restoreFromBackup_run (host : Host) (now : Z) (st : LocalStorage)
      (ps : Props.t) (n : Q) :
  healthy st -> backupItem st = Some (Json (JObj ps)) ->
  field "nextId" ps = JNum n -> 0 < n ->
  restoreFromBackup host now st =
  (Ok (JObj [("success", JBool true);
             ("message", JStr "Data restored successfully from backup")]),
   mkStorage (Some (Json (JObj (migratedProps host now ps (JNum n)))))
             (Some (Json (JObj ps))) true true).
Proof.
  intros [Hr Hw] Hb Hn Hpos. unfold restoreFromBackup. unfold mbind at 1.
  unfold getItem. rewrite Hr, Hb.
  unfold mbind at 1. unfold lift at 1. cbn [JSON_parse].
  unfold mbind at 1. unfold validateAndMigrate.
  unfold mbind at 1. unfold lift at 1.
  rewrite (migrateObject_object host now ps (JNum n)).
  2:{ unfold migratedNextId. rewrite Hn. now rewrite truthy_positive. }
  unfold setItem. rewrite Hw, Hr, Hb. reflexivity.
Qed.

(** X17.  Clearing can be undone: after [clearAllData] on a healthy
    storage whose collection holds accepted tasks and a positive
    [nextId], [restoreFromBackup] returns and the main item again holds
    every task, revalidated at the time of the restore, under the id it
    had, with the [nextId] it had. *)
Theorem clear_then_restore_brings_tasks_back (host : Host) (depth : nat)
        (now now' : Z) (st : LocalStorage) (ps : Props.t)
        (xs : list JsVal) (n : Q) :
  healthy st -> mainItem st = Some (Json (JObj ps)) ->
  field "tasks" ps = JArr xs -> field "nextId" ps = JNum n -> 0 < n ->
  Forall (Accepted host) xs ->
  exists result st',
    restoreFromBackup host now'
      (snd (clearAllData host depth now st)) = (Ok result, st') /\
    rawField "success" result = JBool true /\
    rawField "tasks" (mainData st') = JArr (map (validateTask host now') xs) /\
    idsOf (map (validateTask host now') xs) = idsOf xs /\
    rawField "nextId" (mainData st') = JNum n.
Proof.
  intros Hh Hm Ht Hn Hpos Hacc.
  rewrite (clearAllData_backs_up_and_resets host depth now st (JObj ps)
             Hh Hm).
  cbn [snd].
  match goal with
  | |- context [restoreFromBackup host now' ?s] =>
      rewrite (restoreFromBackup_run host now' s ps n
                 (conj eq_refl eq_refl) eq_refl Hn Hpos)
  end.
  destruct (migratedProps_collection host now' ps xs n Ht Hn Hpos)
    as [Htasks Hnext].
  destruct (accepted_all_revalidate host now' xs Hacc) as [Hall Hids].
  do 2 eexists. split; [reflexivity|].
  cbn [mainData mainItem rawField].
  rewrite Htasks, Hnext, Hall. repeat split. exact Hids.
Qed.

Lemma clear_then_restore_brings_tasks_back_witness :
  exists result st',
    restoreFromBackup plainHost 4000
      (snd (clearAllData plainHost 1 3000 oneTaskStorage))
    = (Ok result, st') /\
    rawField "nextId" (mainData st') = JNum 2.
Proof.
  destruct (clear_then_restore_brings_tasks_back plainHost 1 3000 4000
              oneTaskStorage oneTaskProps oneTaskList 2
              (conj eq_refl eq_refl) eq_refl eq_refl eq_refl eq_refl
              (match oneTask_collection with
               | ex_intro _ _ (conj _ (conj _ H)) => H
               end))
    as (result & st' & Hrun & _ & _ & _ & Hnext).
  exists result, st'. split; assumption.
Defined.

(** ** [getTasksForDate] and [getTodaysTasks] *)

Lemma getAllTasks_run (host : Host) (depth : nat) (now : Z)
      (st : LocalStorage) (ps : Props.t) (xs : list JsVal) :
  readable st = true -> mainItem st = Some (Json (JObj ps)) ->
  field "tasks" ps = JArr xs ->
  getAllTasks host depth now st = (Ok (JArr xs), st).
Proof.
  intros Hr Hm Ht. unfold getAllTasks. unfold mbind at 1.
  rewrite (getAllData_decodes host depth now st (JObj ps) Hr Hm).
  unfold mbind, lift, ret. cbn [get]. fold (field "tasks" ps).
  now rewrite Ht.
Qed.

Lemma get_isObject (k : string) (xs : list JsVal) :
  forallb isObject xs = true ->
  Forall (fun t => get k t = Ok (rawField k t)) xs.
Proof.
  intros H. apply Forall_forall. intros t Hin.
  rewrite forallb_forall in H. specialize (H t Hin).
  destruct t; try discriminate H. reflexivity.
Qed.

(** [getTasksForDate] on a stored object whose [tasks] is an array of
    objects. *)
Lemma getTasksForDate_run (host : Host) (depth : nat) (now : Z)
      (st : LocalStorage) (ps : Props.t) (xs : list JsVal) (date : JsVal) :
  readable st = true -> mainItem st = Some (Json (JObj ps)) ->
  field "tasks" ps = JArr xs -> forallb isObject xs = true ->
  getTasksForDate host depth now date st =
  (Ok (JArr (filter (fun u => strictEq (rawField "date" u)
                                (or date (todayOf now))) xs)), st).
Proof.
  intros Hr Hm Ht Hobj. unfold getTasksForDate. cbv zeta.
  unfold mbind at 1.
  rewrite (getAllTasks_run host depth now st ps xs Hr Hm Ht).
  unfold mbind at 1. unfold lift at 1. cbn [elements].
  rewrite (filterM_pure _ (fun u => strictEq (rawField "date" u)
                                      (or date (todayOf now))) xs).
  - reflexivity.
  - eapply Forall_impl; [|exact (get_isObject "date" xs Hobj)].
    intros t Hget. cbn beta. now rewrite Hget.
Qed.

Lemma strictEq_JStr_refl (s : string) : strictEq (JStr s) (JStr s) = true.
Proof. cbn. apply String.eqb_refl. Qed.

(** What [addTask] returned and wrote, for a stored object whose [tasks]
    is an array and whose [nextId] is a number. *)
Lemma addTask_ok (host : Host) (depth : nat) (now : Z)
      (st st' : LocalStorage) (ps : Props.t) (xs : list JsVal) (n : Q)
      (taskData t : JsVal) :
  readable st = true -> mainItem st = Some (Json (JObj ps)) ->
  field "tasks" ps = JArr xs -> field "nextId" ps = JNum n ->
  addTask host depth now taskData st = (Ok t, st') ->
  t = validateTask host now (newTaskInput now (JNum n) taskData) /\
  truthy t = true /\
  st' = mkStorage
          (Some (Json (JObj (Props.set "lastModified" (isoNow now)
                            (Props.set "nextId" (JNum (n + 1))
                            (Props.set "tasks" (JArr (xs ++ [t])) ps))))))
          (Some (Json (JObj ps))) true true.
Proof.
  intros Hr Hm Ht Hn Hrun.
  rewrite (addTask_run host depth now st ps xs n taskData Hr Hm Ht Hn) in Hrun.
  cbv zeta in Hrun.
  destruct (truthy (validateTask host now _)) eqn:Htr;
    [|discriminate Hrun].
  match type of Hrun with
  | (if ?c then _ else _) = _ => destruct c; [|discriminate Hrun]
  end.
  destruct (saveAllData now _ st) as [[[|]|e] st1] eqn:Hsave;
    try discriminate Hrun.
  injection Hrun as <- <-.
  apply saveAllData_true in Hsave. destruct Hsave as (_ & _ & ->).
  rewrite Hm. repeat split. exact Htr.
Qed.

(** X18.  A task just added is among today's tasks: after [addTask]
    returned, [getTodaysTasks] on the same day returns the former tasks
    dated that day followed by the new task, and writes nothing. *)
Theorem added_task_is_among_todays (host : Host) (depth : nat)
        (now now' : Z) (st st' : LocalStorage) (ps : Props.t)
        (xs : list JsVal) (n : Q) (taskData t : JsVal) :
  readable st = true -> mainItem st = Some (Json (JObj ps)) ->
  field "tasks" ps = JArr xs -> forallb isObject xs = true ->
  field "nextId" ps = JNum n ->
  addTask host depth now taskData st = (Ok t, st') ->
  todayOf now' = todayOf now ->
  getTodaysTasks host depth now' st' =
  (Ok (JArr (filter (fun u => strictEq (rawField "date" u) (todayOf now)) xs
             ++ [t])), st').
Proof.
  intros Hr Hm Ht Hobj Hn Hrun Hday.
  destruct (addTask_ok host depth now st st' ps xs n taskData t
              Hr Hm Ht Hn Hrun) as (Heq & Htr & ->).
  destruct (validateTask_inv host now _ t (eq_sym Heq) Htr)
    as (? & ? & ? & ? & ? & ? & _ & _ & _ & _ & _ & _ & _ & _ & Hshape).
  assert (Hdate : rawField "date" t = todayOf now).
  { rewrite Hshape.
    change (or (rawField "date" (newTaskInput now (JNum n) taskData))
               (todayOf now) = todayOf now).
    unfold newTaskInput. cbn [rawField]. rewrite field_set_same.
    unfold or. now destruct (truthy (todayOf now)). }
  unfold getTodaysTasks.
  match goal with
  | |- getTasksForDate _ _ _ _ ?s = _ =>
      rewrite (getTasksForDate_run host depth now' s _ (xs ++ [t]) JNull
                 eq_refl eq_refl)
  end.
  - cbn [or truthy]. rewrite Hday, filter_app. cbn [filter].
    rewrite Hdate. unfold todayOf at 2 3. rewrite strictEq_JStr_refl.
    reflexivity.
  - rewrite !field_set_other by discriminate. apply field_set_same.
  - rewrite forallb_app, Hobj. cbn [forallb andb].
    rewrite Hshape. reflexivity.
Qed.

Lemma added_task_is_among_todays_witness :
  exists t,
    getTodaysTasks plainHost 1 5000 twoTaskStorage =
    (Ok (JArr (oneTaskList ++ [t])), twoTaskStorage).
Proof.
  exists (match fst (addTask plainHost 1 2000 sampleTask oneTaskStorage) with
          | Ok t => t
          | Throw _ => JNull
          end).
  apply (added_task_is_among_todays plainHost 1 2000 5000 oneTaskStorage
           twoTaskStorage oneTaskProps oneTaskList 2 sampleTask);
    vm_compute; reflexivity.
Defined.

(** ** [getTaskStats] *)

Lemma countWhere_pure (f : JsVal -> Result bool) (p : JsVal -> bool)
      (xs : list JsVal) :
  Forall (fun x => f x = Ok (p x)) xs ->
  countWhere f xs = Ok (JInt (Z.of_nat (List.length (filter p xs)))).
Proof.
  intros H. unfold countWhere. now rewrite (filterM_pure f p xs H).
Qed.

Lemma filter_partition_length {A} (p : A -> bool) (xs : list A) :
  (List.length (filter p xs)
   + List.length (filter (fun x => negb (p x)) xs))%nat = List.length xs.
Proof.
  induction xs as [|x rest IH]; [reflexivity|].
  cbn [filter]. destruct (p x); cbn [negb List.length]; lia.
Qed.

Lemma filter_and_length {A} (p q : A -> bool) (xs : list A) :
  (List.length (filter (fun x => p x && q x) xs)
   <= List.length (filter q xs))%nat.
Proof.
  induction xs as [|x rest IH]; [reflexivity|].
  cbn [filter]. destruct (p x), (q x); cbn [andb List.length]; lia.
Qed.

Lemma Forall_filter_keep {A} (P : A -> Prop) (p : A -> bool) (xs : list A) :
  Forall P xs -> Forall P (filter p xs).
Proof.
  intros H. apply Forall_forall. intros x Hin.
  apply filter_In in Hin. destruct Hin as [Hin _].
  rewrite Forall_forall in H. now apply H.
Qed.

(** An accepted task stores at least five minutes. *)
Lemma accepted_timeRequired (host : Host) (t : JsVal) :
  Accepted host t ->
  exists m, rawField "timeRequired" t = JInt m /\ (5 <= m)%Z.
Proof.
  intros (now0 & raw & _ & Hv & Htr).
  destruct (validateTask_inv host now0 raw t Hv Htr)
    as (? & ? & minutes & ? & ? & ? & _ & _ & _ & _ & _ & _ & _ & _ & ->).
  exists (Z.max 5 (orDefault minutes 60)). split; [reflexivity|lia].
Qed.

(** The score of an accepted task is a number or [NaN]. *)
Lemma calculateSmartScore_number (host : Host) (now : Z) (task score : JsVal) :
  calculateSmartScore host now task = Ok score ->
  score = JNaN \/ exists s, score = JNum s.
Proof.
  intros H. unfold calculateSmartScore in H. bind_inv H. cbv zeta in H.
  destruct (member _); injection H as <-; auto;
    match goal with
    | |- context [match ?o with Some _ => _ | None => _ end] =>
        destruct o; eauto
    end.
Qed.

Lemma accepted_smartScore (host : Host) (t : JsVal) :
  Accepted host t ->
  rawField "smartScore" t = JNaN \/ exists s, rawField "smartScore" t = JNum s.
Proof.
  intros (now0 & raw & _ & Hv & Htr).
  destruct (validateTask_inv host now0 raw t Hv Htr)
    as (? & ? & ? & ? & ? & score & _ & _ & _ & _ & _ & _ & _ & Hscore & ->).
  change (score = JNaN \/ exists s, score = JNum s).
  exact (calculateSmartScore_number host now0 _ score Hscore).
Qed.

Lemma accepted_get (host : Host) (k : string) (xs : list JsVal) :
  Forall (Accepted host) xs ->
  Forall (fun t => get k t = Ok (rawField k t)) xs.
Proof.
  intros H. eapply Forall_impl; [|exact H].
  intros t Hacc. destruct (accepted_object host t Hacc) as [c ->].
  reflexivity.
Qed.

(** The minutes of accepted tasks add up to a number, at least five per
    task. *)
Lemma reduceSum_time (host : Host) (xs : list JsVal) :
  Forall (Accepted host) xs ->
  forall acc, exists T,
    reduceSum host timeOf (JNum acc) xs = Ok (JNum T) /\
    acc + 5 * inject_Z (Z.of_nat (List.length xs)) <= T.
Proof.
  induction 1 as [|t rest Ht _ IH]; intros acc.
  - exists acc. split; [reflexivity|].
    cbn [List.length Z.of_nat]. change (inject_Z 0) with 0. lra.
  - destruct (accepted_object host t Ht) as [c Hc].
    destruct (accepted_timeRequired host t Ht) as (m & Hm & Hm5).
    destruct (IH (acc + inject_Z m)) as (T & Hsum & Hle).
    exists T. split.
    + cbn [reduceSum]. unfold timeOf at 1. subst t. cbn [get bind].
      cbn [rawField] in Hm. unfold field in Hm. rewrite Hm.
      rewrite or_truthy by (apply truthy_JInt; lia).
      cbn [bind jsAdd toPrimitive JInt ToNumber]. exact Hsum.
    + eapply Qle_trans; [|exact Hle].
      cbn [List.length]. rewrite Nat2Z.inj_succ, <- Z.add_1_r.
      rewrite inject_Z_plus.
      assert (inject_Z 5 <= inject_Z m) by now rewrite <- Zle_Qle.
      change (inject_Z 5) with 5 in *. change (inject_Z 1) with 1. lra.
Qed.

(** The scores of accepted tasks add up to a number or [NaN]. *)
Lemma reduceSum_smartScore (host : Host) (xs : list JsVal) :
  Forall (Accepted host) xs ->
  forall acc, acc = JNaN \/ (exists q, acc = JNum q) ->
  exists r, reduceSum host (get "smartScore") acc xs = Ok r /\
            (r = JNaN \/ exists q, r = JNum q).
Proof.
  induction 1 as [|t rest Ht _ IH]; intros acc Hacc.
  - exists acc. split; [reflexivity|assumption].
  - destruct (accepted_object host t Ht) as [c Hc].
    pose proof (accepted_smartScore host t Ht) as Hs. subst t.
    cbn [rawField] in Hs. cbn [reduceSum get bind].
    fold (field "smartScore" c).
    assert (Hadd : exists r, jsAdd host acc (field "smartScore" c) = Ok r /\
                             (r = JNaN \/ exists q, r = JNum q)).
    { destruct Hacc as [->|[q ->]], Hs as [->|[s ->]];
        cbn [jsAdd toPrimitive bind ToNumber]; eauto. }
    destruct Hadd as (r & -> & Hr). cbn [bind]. now apply IH.
Qed.

(** X19.  On a stored collection of accepted tasks [getTaskStats]
    returns and writes nothing; over the tasks it reports (those of the
    given date, or all of them without a date), the total is the number
    of tasks, completed and pending add up to the total, the overdue
    tasks are among the pending ones, and the total time is a number,
    at least five minutes per task. *)
Theorem getTaskStats_counts_add_up (host : Host) (depth : nat) (now : Z)
        (st : LocalStorage) (ps : Props.t) (xs : list JsVal) (date : JsVal) :
  readable st = true -> mainItem st = Some (Json (JObj ps)) ->
  field "tasks" ps = JArr xs -> Forall (Accepted host) xs ->
  let ys := if truthy date
            then filter (fun u => strictEq (rawField "date" u) date) xs
            else xs in
  exists stats c p o T,
    getTaskStats host depth now date st = (Ok stats, st) /\
    rawField "total" stats = JInt (Z.of_nat (List.length ys)) /\
    rawField "completed" stats = JInt (Z.of_nat c) /\
    rawField "pending" stats = JInt (Z.of_nat p) /\
    rawField "overdue" stats = JInt (Z.of_nat o) /\
    rawField "totalTime" stats = JNum T /\
    (c + p = List.length ys)%nat /\ (o <= p)%nat /\
    5 * inject_Z (Z.of_nat (List.length ys)) <= T.
Proof.
  intros Hr Hm Ht Hacc ys.
  assert (Hobj : forallb isObject xs = true).
  { apply forallb_forall. intros t Hin. rewrite Forall_forall in Hacc.
    destruct (accepted_object host t (Hacc t Hin)) as [c ->]. reflexivity. }
  assert (Hys : Forall (Accepted host) ys).
  { subst ys. destruct (truthy date); [now apply Forall_filter_keep|assumption]. }
  assert (Htasks : (if truthy date then getTasksForDate host depth now date
                    else getAllTasks host depth now) st = (Ok (JArr ys), st)).
  { subst ys. destruct (truthy date) eqn:Hd.
    - rewrite (getTasksForDate_run host depth now st ps xs date Hr Hm Ht Hobj).
      now rewrite (or_truthy date _ Hd).
    - exact (getAllTasks_run host depth now st ps xs Hr Hm Ht). }
  clearbody ys.
  set (done := fun t => truthy (rawField "completed" t)).
  set (late := fun t => truthy (rawField "overdue" t)).
  destruct (reduceSum_time host ys Hys 0) as (T & HT & HTle).
  destruct (reduceSum_time host (filter done ys)
              (Forall_filter_keep _ done ys Hys) 0) as (T' & HT' & _).
  destruct (reduceSum_smartScore host ys Hys (JInt 0)) as (r & Hr' & Hrn).
  { right. now eexists. }
  assert (Hdone : Forall (fun t => isCompleted t = Ok (done t)) ys).
  { eapply Forall_impl; [|exact (accepted_get host "completed" ys Hys)].
    intros t Hg. unfold isCompleted. now rewrite Hg. }
  assert (Hquad : forall q,
             Forall (fun t => inQuadrant q t
                              = Ok (strictEq (rawField "eisenhowerMatrix" t)
                                             (JStr q))) ys).
  { intros q.
    eapply Forall_impl; [|exact (accepted_get host "eisenhowerMatrix" ys Hys)].
    intros t Hg. unfold inQuadrant. now rewrite Hg. }
  unfold getTaskStats. unfold mbind at 1. rewrite Htasks.
  unfold mbind at 1. unfold lift at 1. cbn [elements].
  rewrite (countWhere_pure _ done ys Hdone).
  unfold mbind at 1. unfold lift at 1.
  rewrite (countWhere_pure _ (fun t => negb (done t)) ys).
  2:{ eapply Forall_impl; [|exact Hdone].
      intros t Hg. cbn beta in *. now rewrite Hg. }
  unfold mbind at 1. unfold lift at 1.
  rewrite (countWhere_pure _ (fun t => late t && negb (done t)) ys).
  2:{ pose proof (accepted_get host "overdue" ys Hys) as Hov.
      rewrite Forall_forall in *. intros t Hin. cbn beta.
      rewrite (Hov t Hin). cbn [bind]. fold (late t).
      destruct (late t); [|reflexivity].
      now rewrite (Hdone t Hin). }
  unfold mbind at 1. unfold lift at 1.
  rewrite (countWhere_pure _ _ ys (Hquad "Q1")).
  unfold mbind at 1. unfold lift at 1.
  rewrite (countWhere_pure _ _ ys (Hquad "Q2")).
  unfold mbind at 1. unfold lift at 1.
  rewrite (countWhere_pure _ _ ys (Hquad "Q3")).
  unfold mbind at 1. unfold lift at 1.
  rewrite (countWhere_pure _ _ ys (Hquad "Q4")).
  unfold mbind at 1. unfold lift at 1.
  change (JInt 0) with (JNum 0) at 1. rewrite HT.
  unfold mbind at 1. unfold lift at 1.
  rewrite (filterM_pure _ done ys Hdone).
  unfold mbind at 1. unfold lift at 1.
  change (JInt 0) with (JNum 0) at 1. rewrite HT'.
  assert (Havg : exists avg,
             match ys with
             | [] => Ok (JInt 0)
             | _ :: _ =>
                 sum <- reduceSum host (get "smartScore") (JInt 0) ys ;;
                 average host sum (List.length ys)
             end = Ok avg).
  { destruct ys as [|y rest]; [eauto|].
    rewrite Hr'. cbn [bind]. unfold average.
    destruct Hrn as [->|[q ->]]; cbn [ToNumber bind]; eauto. }
  destruct Havg as (avg & Havg).
  unfold mbind at 1. unfold lift at 1. rewrite Havg.
  unfold ret.
  do 5 eexists. split; [reflexivity|].
  repeat split.
  - apply filter_partition_length.
  - apply filter_and_length.
  - lra.
Qed.

Lemma getTaskStats_counts_add_up_witness :
  exists stats,
    getTaskStats plainHost 1 3000 JNull twoTaskStorage
    = (Ok stats, twoTaskStorage) /\
    rawField "total" stats = JInt 2.
Proof.
  destruct (getTaskStats_counts_add_up plainHost 1 3000 twoTaskStorage
              (mainProps twoTaskStorage)
              (arrayOf (field "tasks" (mainProps twoTaskStorage))) JNull
              eq_refl eq_refl eq_refl)
    as (stats & c & p & o & T & Hrun & Htotal & _).
  - constructor; [|constructor; [|constructor]].
    + exists 1000%Z, (nth 0 oneTaskList JUndefined).
      split; [reflexivity|]. split; reflexivity.
    + exists 2000%Z,
             (nth 1 (arrayOf (field "tasks" (mainProps twoTaskStorage)))
                  JUndefined).
      split; [reflexivity|]. split; reflexivity.
  - exists stats. split; [exact Hrun|exact Htotal].
Defined.
